(** * pyTenable, Security Center WAS scans: the request builder and the
    CRUD surface of [tenable/sc/was_scan.py]

    The development embeds [WasScanAPI] shallowly.  Python values are an
    inductive type, exceptions are the left side of a result type, the
    keyword arguments of a call are a finite map from names to values and
    the HTTP collaborator is a function from the request it is handed to
    the JSON body it decodes.  A method returns the requests it dispatched
    together with its result, so that a failure "before any request is
    sent" is a failure with an empty dispatch log. *)

From Stdlib Require Import Ascii.
From stdpp Require Import base strings gmap list pretty.

Local Open Scope Z_scope.

(** ** Python values and built-in operations *)

Module Py.

(** The fragment of Python's values that the documented arguments of
    [WasScanAPI] and the JSON bodies range over.  A dictionary keeps the
    insertion order of its keys, which are strings. *)
#[warnings="-register-all"] Inductive PyVal :=
| PyNone
| PyBool (b : bool)
| PyInt (n : Z)
| PyStr (s : string)
| PyList (items : list PyVal)
| PyTuple (items : list PyVal)
| PyDict (entries : list (string * PyVal)).

(** The classes handed to [_check] as [expected_type]. *)
Inductive PyType := TStr | TInt.

(** Exceptions.  The first four are raised by built-in operations and by
    [copy]; [InvalidType] and [InvalidChoice] are the validation errors of
    [_check], carrying the name of the field they reject; [TransportError]
    is whatever the HTTP collaborator raises. *)
Inductive exn :=
| KeyError (key : PyVal)
| IndexError
| TypeError
| ValueError (msg : string)
| InvalidType (field : string) (expected : PyType)
| InvalidChoice (field : string) (allowed : list string)
| TransportError (status : Z).

Inductive result (A : Type) :=
| Ok (a : A)
| Err (e : exn).
Global Arguments Ok {A} a.
Global Arguments Err {A} e.

Global Instance result_ret : MRet result := λ A a, Ok a.
Global Instance result_bind : MBind result := λ A B f m,
  match m with
  | Ok a => f a
  | Err e => Err e
  end.
Global Instance result_fmap : FMap result := λ A B f m,
  match m with
  | Ok a => Ok (f a)
  | Err e => Err e
  end.

(** [for x in xs] building a list, left to right, stopping at the first
    exception. *)
Fixpoint for_each {A B} (f : A → result B) (xs : list A) : result (list B) :=
  match xs with
  | [] => Ok []
  | x :: xs' => y ← f x; ys ← for_each f xs'; Ok (y :: ys)
  end.

Definition is_err {A} (r : result A) : bool :=
  match r with
  | Ok _ => false
  | Err _ => true
  end.

(** A validation error that names [field]. *)
Definition names_field (e : exn) (field : string) : Prop :=
  match e with
  | InvalidType f _ | InvalidChoice f _ => f = field
  | _ => False
  end.

(** *** Truth value: [if x], [x if c else y] *)
Definition truthy (v : PyVal) : bool :=
  match v with
  | PyNone => false
  | PyBool b => b
  | PyInt n => negb (n =? 0)
  | PyStr s => negb (String.eqb s "")
  | PyList items | PyTuple items => negb (Nat.eqb (length items) 0)
  | PyDict entries => negb (Nat.eqb (length entries) 0)
  end.

(** [x is None] *)
Definition is_none (v : PyVal) : bool :=
  match v with
  | PyNone => true
  | _ => false
  end.

(** *** [str(x)] and [repr(x)] *)

Definition dquote : ascii := ascii_of_nat 34.
Definition squote : ascii := ascii_of_nat 39.
Definition backslash : ascii := ascii_of_nat 92.

Definition hex_digit (n : N) : ascii :=
  if (n <? 10)%N then ascii_of_N (48 + n) else ascii_of_N (87 + n).

Fixpoint contains_char (c : ascii) (s : string) : bool :=
  match s with
  | EmptyString => false
  | String c' s' => Ascii.eqb c c' || contains_char c s'
  end.

(** The quote [repr] puts around a string: a double quote when the string
    holds a single quote and no double quote, a single quote otherwise. *)
Definition repr_quote (s : string) : ascii :=
  if contains_char squote s && negb (contains_char dquote s)
  then dquote else squote.

(** One character of a string's [repr]; a character is its code point,
    below 256. *)
Definition repr_char (quote c : ascii) : string :=
  let n := N_of_ascii c in
  if Ascii.eqb c quote || Ascii.eqb c backslash
  then String backslash (String c EmptyString)
  else if (n =? 9)%N then String backslash "t"
  else if (n =? 10)%N then String backslash "n"
  else if (n =? 13)%N then String backslash "r"
  else if (n <? 32)%N || (n =? 127)%N
          || ((128 <=? n)%N && (n <=? 160)%N) || (n =? 173)%N
  then String backslash
         (String "x" (String (hex_digit (n / 16)) (String (hex_digit (n mod 16)) EmptyString)))
  else String c EmptyString.

Fixpoint repr_chars (quote : ascii) (s : string) : string :=
  match s with
  | EmptyString => EmptyString
  | String c s' => repr_char quote c +:+ repr_chars quote s'
  end.

Definition repr_str (s : string) : string :=
  let q := repr_quote s in
  String q (repr_chars q s +:+ String q EmptyString).

(** [sep.join(parts)] on strings. *)
Fixpoint join (sep : string) (parts : list string) : string :=
  match parts with
  | [] => ""
  | [p] => p
  | p :: rest => p +:+ sep +:+ join sep rest
  end.

Fixpoint repr (v : PyVal) : string :=
  match v with
  | PyNone => "None"
  | PyBool true => "True"
  | PyBool false => "False"
  | PyInt n => pretty n
  | PyStr s => repr_str s
  | PyList items => "[" +:+ join ", " (List.map repr items) +:+ "]"
  | PyTuple [item] => "(" +:+ repr item +:+ ",)"
  | PyTuple items => "(" +:+ join ", " (List.map repr items) +:+ ")"
  | PyDict entries =>
      "{" +:+ join ", " (List.map (λ kv, repr_str (fst kv) +:+ ": " +:+ repr (snd kv)) entries) +:+ "}"
  end.

(** [str(x)], which is also what an f-string field [{x}] renders. *)
Definition str (v : PyVal) : string :=
  match v with
  | PyStr s => s
  | _ => repr v
  end.

(** *** [len(x)], iteration and subscripts *)

Definition chars (s : string) : list PyVal :=
  (λ c, PyStr (String c EmptyString)) <$> String.list_ascii_of_string s.

(** [len(x)]: a [TypeError] for a value without a length. *)
Definition len (v : PyVal) : result Z :=
  match v with
  | PyStr s => Ok (Z.of_nat (String.length s))
  | PyList items | PyTuple items => Ok (Z.of_nat (length items))
  | PyDict entries => Ok (Z.of_nat (length entries))
  | PyNone | PyBool _ | PyInt _ => Err TypeError
  end.

(** The elements [for x in v] visits: the items of a list or tuple, the
    characters of a string, the keys of a dictionary. *)
Definition iter (v : PyVal) : result (list PyVal) :=
  match v with
  | PyStr s => Ok (chars s)
  | PyList items | PyTuple items => Ok items
  | PyDict entries => Ok ((λ kv, PyStr (fst kv)) <$> entries)
  | PyNone | PyBool _ | PyInt _ => Err TypeError
  end.

(** [v[i]] for a literal index [i], 0 or 1 in this module. *)
Definition item_at (v : PyVal) (i : nat) : result PyVal :=
  match v with
  | PyList items | PyTuple items =>
      match items !! i with
      | Some x => Ok x
      | None => Err IndexError
      end
  | PyStr s =>
      match chars s !! i with
      | Some x => Ok x
      | None => Err IndexError
      end
  | PyDict _ => Err (KeyError (PyInt (Z.of_nat i)))
  | PyNone | PyBool _ | PyInt _ => Err TypeError
  end.

(** A dictionary body: the entries in insertion order. *)
Abbreviation dict := (list (string * PyVal)).

Fixpoint dict_get (k : string) (d : dict) : option PyVal :=
  match d with
  | [] => None
  | (k', v) :: d' => if String.eqb k k' then Some v else dict_get k d'
  end.

(** [d[k] = v]: the value is replaced where the key is, a new key goes last. *)
Fixpoint dict_set (k : string) (v : PyVal) (d : dict) : dict :=
  match d with
  | [] => [(k, v)]
  | (k', v') :: d' =>
      if String.eqb k k' then (k', v) :: d' else (k', v') :: dict_set k v d'
  end.

(** [v[k]] for a literal string key [k]. *)
Definition item (v : PyVal) (k : string) : result PyVal :=
  match v with
  | PyDict entries =>
      match dict_get k entries with
      | Some x => Ok x
      | None => Err (KeyError (PyStr k))
      end
  | _ => Err TypeError
  end.

(** [d[outer][inner] = v]: the dictionary stored under [outer] is updated
    in place, so the update shows through [d]. *)
Definition dict_set_in (outer inner : string) (v : PyVal) (d : dict)
    : result dict :=
  match dict_get outer d with
  | Some (PyDict entries) =>
      Ok (dict_set outer (PyDict (dict_set inner v entries)) d)
  | Some _ => Err TypeError
  | None => Err (KeyError (PyStr outer))
  end.

(** [sep.join(parts)]: every part has to be a string. *)
Definition str_join (sep : string) (parts : list PyVal) : result PyVal :=
  strs ← for_each (λ p, match p with PyStr s => Ok s | _ => Err TypeError end) parts;
  Ok (PyStr (join sep strs)).

(** Keyword arguments: [kwargs[k]] raises [KeyError] on a name that was not
    passed, [k in kwargs] is [kwargs !! k] being [Some _]. *)
Abbreviation Kwargs := (gmap string PyVal).

Definition kwarg (kwargs : Kwargs) (k : string) : result PyVal :=
  match kwargs !! k with
  | Some v => Ok v
  | None => Err (KeyError (PyStr k))
  end.

End Py.

Import Py.

(** ** The endpoint base class: HTTP collaborator and input validation *)

Inductive Verb := GET | POST | PATCH | DELETE.

(** What a method hands to [self._api]: the verb, the path, and the
    [params] and [json] keyword arguments when they are passed. *)
Record HttpRequest := {
  verb : Verb;
  path : string;
  params : option PyVal;
  json : option PyVal
}.

(** What [WasScanAPI] inherits from [SCEndpoint]: the session [_api], read
    here as the decoded JSON body of the reply to a request (or the
    exception the transport raises), and the validator [_check name obj
    expected_type choices]. *)
Record SCEndpoint := {
  _api : HttpRequest → result PyVal;
  _check : string → PyVal → PyType → option (list string) → result PyVal
}.

(** A method call: the requests it dispatched, oldest first, and its
    result or exception. *)
Definition Call (A : Type) : Type := (list HttpRequest * result A)%type.

Definition dispatched {A} (c : Call A) : list HttpRequest := fst c.
Definition outcome {A} (c : Call A) : result A := snd c.

Global Instance call_ret : MRet Call := λ A a, ([], Ok a).
Global Instance call_bind : MBind Call := λ A B f m,
  match m with
  | (log, Ok a) => let '(log', r) := f a in (log ++ log', r)
  | (log, Err e) => (log, Err e)
  end.

(** A step that does no I/O. *)
Definition pure {A} (r : result A) : Call A := ([], r).

(** [self._api.<verb>(path, params=..., json=...).json()] *)
Definition send (self : SCEndpoint) (v : Verb) (p : string)
    (ps js : option PyVal) : Call PyVal :=
  let req := {| verb := v; path := p; params := ps; json := js |} in
  ([req], _api self req).

(** ** [tenable/sc/was_scan.py] *)

Definition _to_boolean_string (boolean_value : PyVal) : PyVal :=
  PyStr (if truthy boolean_value then "true" else "false").

(** [if key in kwargs: <body on kwargs[key]>], the request being left as
    it is when the name was not passed. *)
Definition when_in (kwargs : Kwargs) (key : string) (request : dict)
    (body : PyVal → result dict) : result dict :=
  match kwargs !! key with
  | Some v => body v
  | None => Ok request
  end.

Module WasScanAPI.

Definition api_route : string := "wasScan".

Definition _build_creation_or_update_request (self : SCEndpoint)
    (kwargs : Kwargs) : result dict :=
  let request : dict := [] in
  name ← kwarg kwargs "name";
  request ←
    (if truthy name
     then c ← _check self "name" name TStr None; Ok (dict_set "name" c request)
     else Ok request);
  request ← when_in kwargs "type" request (λ v,
    c ← _check self "type" v TStr None; Ok (dict_set "type" c request));
  request ← when_in kwargs "description" request (λ v,
    c ← _check self "description" v TStr None;
    Ok (dict_set "description" c request));
  request ← when_in kwargs "repository_id" request (λ v,
    Ok (dict_set "repository" (PyDict [("id", PyStr (str v))]) request));
  request ← when_in kwargs "zone_id" request (λ v,
    Ok (dict_set "zone" (PyDict [("id", PyStr (str v))]) request));
  request ← when_in kwargs "dhcpTracking" request (λ v,
    Ok (dict_set "dhcpTracking" (_to_boolean_string v) request));
  request ← when_in kwargs "classifyMitigatedAge" request (λ v,
    Ok (dict_set "classifyMitigatedAge" (PyStr (str v)) request));
  request ← when_in kwargs "schedule_type" request (λ v,
    c ← _check self "schedule_type" v TStr
          (Some ["ical"; "never"; "rollover"; "template"]);
    Ok (dict_set "schedule" (PyDict [("type", c)]) request));
  request ← when_in kwargs "reports" request (λ reports,
    n ← len reports;
    if 0 <? n then
      items ← iter reports;
      entries ← for_each (λ report,
        r0 ← item_at report 0;
        id ← _check self "report_id" r0 TInt None;
        r1 ← item_at report 1;
        source ← _check self "reportSource" r1 TStr
                   (Some ["cumulative"; "patched"; "individual"; "lce";
                          "archive"; "mobile"]);
        Ok (PyDict [("id", id); ("reportSource", source)])) items;
      Ok (dict_set "reports" (PyList entries) request)
    else Ok request);
  request ← when_in kwargs "assets" request (λ assets,
    n ← len assets;
    if 0 <? n then
      items ← iter assets;
      entries ← for_each (λ asset,
        id ← _check self "asset" asset TInt None;
        Ok (PyDict [("id", id)])) items;
      Ok (dict_set "assets" (PyList entries) request)
    else Ok request);
  request ← when_in kwargs "credentials" request (λ credentials,
    n ← len credentials;
    if 0 <? n then
      items ← iter credentials;
      entries ← for_each (λ credential,
        id ← _check self "credentials" credential TInt None;
        Ok (PyDict [("id", id)])) items;
      Ok (dict_set "credentials" (PyList entries) request)
    else Ok request);
  request ← when_in kwargs "emailOnLaunch" request (λ v,
    Ok (dict_set "emailOnLaunch" (_to_boolean_string v) request));
  request ← when_in kwargs "emailOnFinish" request (λ v,
    Ok (dict_set "emailOnFinish" (_to_boolean_string v) request));
  request ← when_in kwargs "timeoutAction" request (λ v,
    c ← _check self "timeoutAction" v TStr
          (Some ["discard"; "import"; "rollover"]);
    Ok (dict_set "timeoutAction" c request));
  request ← when_in kwargs "scanningVirtualHosts" request (λ v,
    Ok (dict_set "scanningVirtualHosts" (_to_boolean_string v) request));
  request ← when_in kwargs "rolloverType" request (λ v,
    c ← _check self "rolloverType" v TStr (Some ["nextDay"; "template"]);
    Ok (dict_set "rolloverType" c request));
  request ← when_in kwargs "urlList" request (λ v,
    c ← _check self "urlList" v TStr None; Ok (dict_set "urlList" c request));
  request ← when_in kwargs "maxScanTime" request (λ v,
    Ok (dict_set "maxScanTime" (PyStr (str v)) request));
  Ok request.

Definition create (self : SCEndpoint) (kwargs : Kwargs) : Call PyVal :=
  request ← pure (_build_creation_or_update_request self kwargs);
  body ← send self POST api_route None (Some (PyDict request));
  pure (item body "response").

Definition details (self : SCEndpoint) (scan_id fields : PyVal) : Call PyVal :=
  let params : dict := [] in
  params ← pure (
    if truthy fields then
      fs ← iter fields;
      string_fields ← for_each (λ f, _check self "fields" f TStr None) fs;
      joined ← str_join "," string_fields;
      Ok (dict_set "fields" joined params)
    else Ok params);
  body ← send self GET (api_route +:+ "/" +:+ str scan_id)
           (Some (PyDict params)) None;
  pure (item body "response").

Definition edit (self : SCEndpoint) (scan_id : PyVal) (kwargs : Kwargs)
    : Call PyVal :=
  request ← pure (_build_creation_or_update_request self kwargs);
  body ← send self PATCH (api_route +:+ "/" +:+ str scan_id) None
           (Some (PyDict request));
  pure (item body "response").

Definition delete (self : SCEndpoint) (scan_id : PyVal) : Call PyVal :=
  send self DELETE (api_route +:+ "/" +:+ str scan_id) None None.

Definition copy (self : SCEndpoint) (scan_id scan_uuid name : PyVal)
    : Call PyVal :=
  if (negb (is_none scan_id) && negb (is_none scan_uuid))
     || (is_none scan_id && is_none scan_uuid)
  then pure (Err (ValueError
         "Exactly one of these [scan_id, scan_uuid] should be found."))
  else
    checked_name ← pure (_check self "name" name TStr None);
    let request : dict :=
      [("name", checked_name); ("targetUser", PyDict [])] in
    '(request, path) ← pure (
      if truthy scan_id then
        id ← _check self "scan_id" scan_id TInt None;
        request ← dict_set_in "targetUser" "id" id request;
        Ok (request, api_route +:+ "/" +:+ str scan_id +:+ "/copy")
      else
        uuid ← _check self "scan_uuid" scan_uuid TStr None;
        request ← dict_set_in "targetUser" "uuid" uuid request;
        Ok (request, api_route +:+ "/" +:+ str scan_uuid +:+ "/copy"));
    body ← send self POST path None (Some (PyDict request));
    pure (item body "response").

(** Second in the source; kept last here, where its name no longer hides
    the type of lists. *)
Definition list (self : SCEndpoint) (fields : PyVal) : Call PyVal :=
  let params : dict := [] in
  params ← pure (
    if truthy fields then
      fs ← iter fields;
      string_fields ← for_each (λ f, _check self "fields" f TStr None) fs;
      joined ← str_join "," string_fields;
      Ok (dict_set "fields" joined params)
    else Ok params);
  body ← send self GET api_route (Some (PyDict params)) None;
  pure (item body "response").

End WasScanAPI.

(** ** The validator *)

(** The type test of the modelled validator: a string for [str], an
    integer for [int]; a boolean is of neither type.  None, the value of an
    argument that was left out, passes for a string: the example in the
    docstring of [copy], [copy(scan_id=1)], hands the validator the name
    None and is meant to go through.  None is no integer: the spec has the
    ids stay integers. *)
Definition has_type (obj : PyVal) (expected : PyType) : bool :=
  match obj, expected with
  | PyStr _, TStr | PyInt _, TInt | PyNone, TStr => true
  | _, _ => false
  end.

(** [obj in choices], the choices being string literals. *)
Definition in_choices (obj : PyVal) (allowed : list string) : bool :=
  match obj with
  | PyStr s => bool_decide (s ∈ allowed)
  | _ => false
  end.

(** Modelled from the spec: [_check], which [WasScanAPI] inherits from
    [tenable.base.endpoint.APIEndpoint] through [SCEndpoint], is not among
    the sources.  The spec has a field "validated to be of string type;
    passed through unchanged" and an enumerated field "validated against a
    fixed closed set of permitted values; an out-of-set value fails with a
    validation error naming the field and the allowed set"; a value of
    another type is a validation error ("bad type") that names the field as
    well.  The spec does not say what the validator does with None; the
    source does, see [has_type]: where a string is expected and there are
    no choices, None is returned as it is. *)
Definition check (name : string) (obj : PyVal) (expected_type : PyType)
    (choices : option (list string)) : result PyVal :=
  if has_type obj expected_type then
    match choices with
    | None => Ok obj
    | Some allowed =>
        if in_choices obj allowed then Ok obj
        else Err (InvalidChoice name allowed)
    end
  else Err (InvalidType name expected_type).

(** An endpoint over the transport [api] whose validator is [check]. *)
Definition endpoint (api : HttpRequest → result PyVal) : SCEndpoint :=
  {| _api := api; _check := check |}.

(** ** Vocabulary of the statements *)

Abbreviation build := WasScanAPI._build_creation_or_update_request.

(** The keywords the builder reads, in the order it reads them. *)
Definition recognized : list string :=
  ["name"; "type"; "description"; "repository_id"; "zone_id"; "dhcpTracking";
   "classifyMitigatedAge"; "schedule_type"; "reports"; "assets";
   "credentials"; "emailOnLaunch"; "emailOnFinish"; "timeoutAction";
   "scanningVirtualHosts"; "rolloverType"; "urlList"; "maxScanTime"].

(** Each keyword with the key of the request it is stored under. *)
Definition field_outputs : list (string * string) :=
  [("name", "name"); ("type", "type"); ("description", "description");
   ("repository_id", "repository"); ("zone_id", "zone");
   ("dhcpTracking", "dhcpTracking");
   ("classifyMitigatedAge", "classifyMitigatedAge");
   ("schedule_type", "schedule"); ("reports", "reports");
   ("assets", "assets"); ("credentials", "credentials");
   ("emailOnLaunch", "emailOnLaunch"); ("emailOnFinish", "emailOnFinish");
   ("timeoutAction", "timeoutAction");
   ("scanningVirtualHosts", "scanningVirtualHosts");
   ("rolloverType", "rolloverType"); ("urlList", "urlList");
   ("maxScanTime", "maxScanTime")].

Definition boolean_fields : list string :=
  ["dhcpTracking"; "emailOnLaunch"; "emailOnFinish"; "scanningVirtualHosts"].

(** The enumerated keywords with the [choices] the builder passes for them. *)
Definition enumerated : list (string * list string) :=
  [("schedule_type", ["ical"; "never"; "rollover"; "template"]);
   ("timeoutAction", ["discard"; "import"; "rollover"]);
   ("rolloverType", ["nextDay"; "template"])].

Definition report_sources : list string :=
  ["cumulative"; "patched"; "individual"; "lce"; "archive"; "mobile"].

(** Where the value of an enumerated keyword goes: [schedule_type] under
    [schedule.type], the other two under their own name. *)
Definition emitted (key : string) (c : PyVal) : string * PyVal :=
  if String.eqb key "schedule_type"
  then ("schedule", PyDict [("type", c)])
  else (key, c).

Definition collections : list string := ["reports"; "assets"; "credentials"].

(** The element a valid report becomes: its id, still an integer, and its
    source, one of [report_sources]. *)
Definition report_shape (item entry : PyVal) : Prop :=
  ∃ n src,
    item_at item 0 = Ok (PyInt n) ∧ item_at item 1 = Ok (PyStr src)
    ∧ src ∈ report_sources
    ∧ entry = PyDict [("id", PyInt n); ("reportSource", PyStr src)].

(** The element an asset or credential id becomes. *)
Definition id_shape (item entry : PyVal) : Prop :=
  ∃ n, item = PyInt n ∧ entry = PyDict [("id", PyInt n)].

Definition element_shape (key : string) : PyVal → PyVal → Prop :=
  if String.eqb key "reports" then report_shape else id_shape.

(** The value under the [response] key of a decoded body. *)
Definition unwrapped (body : result PyVal) : result PyVal :=
  b ← body; item b "response".

(** A call that dispatched one request and returned the decoded body of
    its reply as it is. *)
Definition returns_raw (self : SCEndpoint) (c : Call PyVal) : Prop :=
  ∃ req, c = ([req], _api self req).

(** A call that dispatched one request and returned what its reply holds
    under [response]. *)
Definition returns_unwrapped (self : SCEndpoint) (c : Call PyVal) : Prop :=
  ∃ req, c = ([req], unwrapped (_api self req)).

(** An element of a collection whose id is an integer. *)
Definition has_int_id (entry : PyVal) : Prop :=
  ∃ n rest, entry = PyDict (("id", PyInt n) :: rest).

(** A transport that answers every request with the same envelope. *)
Definition echo_api : HttpRequest → result PyVal :=
  λ _, Ok (PyDict [("type", PyStr "regular");
                   ("response", PyDict [("id", PyStr "9")])]).

Definition kwargs_of (l : list (string * PyVal)) : Kwargs := list_to_map l.

Definition exactly_one_message : string :=
  "Exactly one of these [scan_id, scan_uuid] should be found.".

(** *** Further vocabulary *)

(** The exception of a result, if it is one. *)
Definition raised {A} (r : result A) : option exn :=
  match r with
  | Ok _ => None
  | Err e => Some e
  end.

(** The keywords the builder stores without consulting the validator. *)
Definition unvalidated : list string :=
  ["repository_id"; "zone_id"; "dhcpTracking"; "classifyMitigatedAge";
   "emailOnLaunch"; "emailOnFinish"; "scanningVirtualHosts"; "maxScanTime"].

(** The keywords the builder hands to the validator as they are, each with
    the [choices] it passes. *)
Definition checked : list (string * option (list string)) :=
  [("type", None); ("description", None);
   ("schedule_type", Some ["ical"; "never"; "rollover"; "template"]);
   ("timeoutAction", Some ["discard"; "import"; "rollover"]);
   ("rolloverType", Some ["nextDay"; "template"]);
   ("urlList", None)].

(** The keys of a request in the order the builder assigns them. *)
Definition output_keys : list string := field_outputs.*2.

(** [assets] and [credentials], each with the name its elements are handed
    to the validator under. *)
Definition id_collections : list (string * string) :=
  [("assets", "asset"); ("credentials", "credentials")].

(** What an element of a collection becomes, whatever the validator is:
    the validator is asked about the first two items of a report, under
    the names [report_id] and [reportSource], and about an asset or a
    credential as a whole, under the names [asset] and [credentials]. *)
Definition built_element (self : SCEndpoint) (key : string)
    (item entry : PyVal) : Prop :=
  if String.eqb key "reports" then
    ∃ r0 id r1 source,
      item_at item 0 = Ok r0 ∧ _check self "report_id" r0 TInt None = Ok id
      ∧ item_at item 1 = Ok r1
      ∧ _check self "reportSource" r1 TStr (Some report_sources) = Ok source
      ∧ entry = PyDict [("id", id); ("reportSource", source)]
  else
    ∃ c, _check self (if String.eqb key "assets" then "asset" else "credentials")
           item TInt None = Ok c
         ∧ entry = PyDict [("id", c)].

(** A call of one of the six methods of [WasScanAPI]. *)
Definition method_call (self : SCEndpoint) (c : Call PyVal) : Prop :=
  (∃ kwargs, c = WasScanAPI.create self kwargs)
  ∨ (∃ fields, c = WasScanAPI.list self fields)
  ∨ (∃ scan_id fields, c = WasScanAPI.details self scan_id fields)
  ∨ (∃ scan_id kwargs, c = WasScanAPI.edit self scan_id kwargs)
  ∨ (∃ scan_id, c = WasScanAPI.delete self scan_id)
  ∨ (∃ scan_id scan_uuid name, c = WasScanAPI.copy self scan_id scan_uuid name).

(** A call that sent nothing and raised, or sent one request and returned
    what the reply holds under [response]. *)
Definition guarded_unwrap (self : SCEndpoint) (c : Call PyVal) : Prop :=
  (∃ e, c = ([], Err e)) ∨ returns_unwrapped self c.

(** What every request of this module looks like: its path starts with the
    route, a GET carries [params] and no body, a POST or PATCH a body and
    no [params], a DELETE neither. *)
Definition well_formed (req : HttpRequest) : Prop :=
  String.prefix WasScanAPI.api_route (path req) = true
  ∧ match verb req with
    | GET => is_Some (params req) ∧ json req = None
    | POST | PATCH => params req = None ∧ is_Some (json req)
    | DELETE => params req = None ∧ json req = None
    end.

(** A transport that is down. *)
Definition down_api : HttpRequest → result PyVal :=
  λ _, Err (TransportError 503).

(** ** Dictionaries and the result monad *)

Lemma dict_get_set_eq k v d : dict_get k (dict_set k v d) = Some v.
Proof.
  induction d as [|[k' v'] d IH]; simpl.
  - by rewrite String.eqb_refl.
  - destruct (String.eqb k k') eqn:E; simpl; rewrite E; done.
Qed.

Lemma dict_get_set_ne k k' v d :
  k ≠ k' → dict_get k (dict_set k' v d) = dict_get k d.
Proof.
  intros Hne. induction d as [|[k'' v''] d IH]; simpl.
  - by apply String.eqb_neq in Hne as ->.
  - destruct (String.eqb k' k'') eqn:E; simpl.
    + apply String.eqb_eq in E as <-.
      by apply String.eqb_neq in Hne as ->.
    + by rewrite IH.
Qed.

Lemma bind_Ok {A B} (m : result A) (f : A → result B) b :
  m ≫= f = Ok b → ∃ a, m = Ok a ∧ f a = Ok b.
Proof. destruct m; simpl; [eauto | discriminate]. Qed.

Lemma not_Ok_Err {A} (m : result A) :
  (∀ a, m ≠ Ok a) → ∃ e, m = Err e.
Proof. destruct m as [a|e]; [intros H; by destruct (H a) | eauto]. Qed.

(** Inversion of a successful sequence of binds and conditionals. *)
Ltac inv_bind H :=
  let a := fresh "r" in
  let E := fresh "E" in
  apply bind_Ok in H as (a & E & H).

Ltac inv_body H :=
  repeat (first
    [ inv_bind H
    | match type of H with (if ?c then _ else _) = _ => destruct c eqn:? end ]);
  first [ discriminate H | injection H as <- | injection H as -> | idtac ].

(** ** The builder, block by block *)

(** A block leaves every key but its own as it found it. *)
Lemma when_in_frame k kwargs key r body r' :
  when_in kwargs key r body = Ok r' →
  (∀ v, body v = Ok r' → dict_get k r' = dict_get k r) →
  dict_get k r' = dict_get k r.
Proof.
  unfold when_in. destruct (kwargs !! key); intros H Hb; [eauto | by simplify_eq].
Qed.

Lemma guard_frame k (c : bool) (m : result dict) r r' :
  (if c then m else Ok r) = Ok r' →
  (m = Ok r' → dict_get k r' = dict_get k r) →
  dict_get k r' = dict_get k r.
Proof. destruct c; intros H Hb; [eauto | by simplify_eq]. Qed.

Ltac frame_side :=
  let Hb := fresh "Hb" in
  first [ intros ? Hb | intros Hb ];
  inv_body Hb; first [ reflexivity | by rewrite dict_get_set_ne ].

(** Walk a lookup in the final request back through the blocks that do not
    assign its key. *)
Ltac frame :=
  repeat match goal with
  | E : when_in _ _ ?r _ = Ok ?r' |- context [dict_get ?k ?r'] =>
      rewrite (when_in_frame k _ _ _ _ _ E) by frame_side
  | E : (if _ then _ else Ok ?r) = Ok ?r' |- context [dict_get ?k ?r'] =>
      rewrite (guard_frame k _ _ _ _ E) by frame_side
  end.

Ltac build_inv H :=
  unfold WasScanAPI._build_creation_or_update_request in H;
  repeat inv_bind H; injection H as <-.

(** The block that owns the key of the goal: split on whether its keyword
    was passed. *)
Ltac own key :=
  match goal with
  | E : when_in ?kw key _ _ = Ok _ |- _ =>
      unfold when_in in E; destruct (kw !! key) eqn:?; inv_body E;
      rewrite ?dict_get_set_eq; frame
  end.

Lemma build_boolean self kwargs req key :
  key ∈ boolean_fields →
  WasScanAPI._build_creation_or_update_request self kwargs = Ok req →
  dict_get key req = _to_boolean_string <$> kwargs !! key.
Proof.
  unfold boolean_fields. rewrite !elem_of_cons, elem_of_nil.
  intros Hkey H. build_inv H.
  destruct Hkey as [->|[->|[->|[->|[]]]]]; frame.
  - by own "dhcpTracking".
  - by own "emailOnLaunch".
  - by own "emailOnFinish".
  - by own "scanningVirtualHosts".
Qed.

Lemma build_stringified self kwargs req :
  WasScanAPI._build_creation_or_update_request self kwargs = Ok req →
  dict_get "repository" req
    = (λ v, PyDict [("id", PyStr (str v))]) <$> kwargs !! "repository_id"
  ∧ dict_get "zone" req
    = (λ v, PyDict [("id", PyStr (str v))]) <$> kwargs !! "zone_id"
  ∧ dict_get "classifyMitigatedAge" req
    = (λ v, PyStr (str v)) <$> kwargs !! "classifyMitigatedAge"
  ∧ dict_get "maxScanTime" req
    = (λ v, PyStr (str v)) <$> kwargs !! "maxScanTime".
Proof.
  intros H. build_inv H. repeat split; frame.
  - by own "repository_id".
  - by own "zone_id".
  - by own "classifyMitigatedAge".
  - by own "maxScanTime".
Qed.

(** A key of a request comes from the block that assigns it. *)
Lemma when_in_origin k x kwargs key out r body r' :
  when_in kwargs key r body = Ok r' →
  (∀ v, body v = Ok r' → r' = r ∨ ∃ c, r' = dict_set out c r) →
  dict_get k r' = Some x →
  (k = out ∧ is_Some (kwargs !! key)) ∨ dict_get k r = Some x.
Proof.
  unfold when_in. destruct (kwargs !! key) as [v|]; intros H Hb Hk.
  - destruct (Hb v H) as [->|[c ->]]; [by right|].
    destruct (decide (k = out)) as [->|Hne]; [left; eauto|].
    right. by rewrite dict_get_set_ne in Hk.
  - injection H as <-. by right.
Qed.

Ltac origin_side :=
  let Hb := fresh "Hb" in
  intros ? Hb; inv_body Hb; eauto.

Lemma build_origin self kwargs req k x :
  build self kwargs = Ok req →
  dict_get k req = Some x →
  ∃ key, key ∈ recognized ∧ (key, k) ∈ field_outputs
         ∧ is_Some (kwargs !! key).
Proof.
  intros H Hk. build_inv H.
  repeat match goal with
  | E : when_in _ ?key ?r ?body = Ok ?r', Hk : dict_get k ?r' = Some _ |- _ =>
      match body with
      | context [dict_set ?out _ r] =>
          apply (when_in_origin k _ _ key out _ _ _ E) in Hk;
          [ destruct Hk as [[-> Hs]|Hk];
            [ exists key; split; [unfold recognized; repeat constructor|];
              split; [unfold field_outputs; repeat constructor | done] | ]
          | origin_side ]
      end
  end.
  unfold kwarg in E. destruct (kwargs !! "name") as [v|] eqn:Hname; [|done].
  injection E as ->.
  destruct (truthy r); inv_body E0; [|done].
  simpl in Hk. destruct (String.eqb_spec k "name") as [->|]; [|done].
  exists "name". split; [unfold recognized; repeat constructor|].
  split; [unfold field_outputs; repeat constructor | by rewrite Hname].
Qed.

Lemma build_insert_unrecognized self kwargs k v :
  k ∉ recognized → build self (<[k:=v]> kwargs) = build self kwargs.
Proof.
  intros Hk.
  unfold WasScanAPI._build_creation_or_update_request, when_in, kwarg.
  rewrite !lookup_insert_ne by (intros ->; apply Hk; unfold recognized; repeat constructor).
  done.
Qed.

(** ** Comprehensions *)

Lemma for_each_Forall2 {A B} (f : A → result B) xs ys :
  for_each f xs = Ok ys → Forall2 (λ x y, f x = Ok y) xs ys.
Proof.
  revert ys. induction xs as [|x xs IH]; intros ys H; simpl in H.
  - injection H as <-. constructor.
  - inv_body H. constructor; auto.
Qed.

Lemma for_each_length {A B} (f : A → result B) xs ys :
  for_each f xs = Ok ys → length ys = length xs.
Proof. intros H. symmetry. by eapply Forall2_length, for_each_Forall2. Qed.

(** The first element that raises decides the exception. *)
Lemma for_each_first_Err {A B} (f : A → result B) good bad rest e :
  Forall (λ x, ∃ y, f x = Ok y) good →
  f bad = Err e →
  for_each f (good ++ bad :: rest) = Err e.
Proof.
  intros Hgood Hbad. induction Hgood as [|x good [y Hy] _ IH]; simpl.
  - by rewrite Hbad.
  - by rewrite Hy, IH.
Qed.

Lemma chars_length s : length (chars s) = String.length s.
Proof.
  unfold chars. rewrite length_fmap.
  induction s as [|c s IH]; simpl; congruence.
Qed.

(** What [len] counts is what the iteration visits. *)
Lemma len_iter v n items :
  len v = Ok n → iter v = Ok items → n = Z.of_nat (length items).
Proof.
  destruct v; simpl; intros Hn Hi; try discriminate;
    injection Hn as <-; injection Hi as <-;
    by rewrite ?chars_length, ?length_fmap.
Qed.

(** ** The modelled validator *)

Lemma check_int_Ok name obj c :
  check name obj TInt None = Ok c → ∃ n, obj = PyInt n ∧ c = PyInt n.
Proof. destruct obj; simpl; intros H; try discriminate. injection H as <-. eauto. Qed.

Lemma check_str_Ok name obj c :
  check name obj TStr None = Ok c →
  c = obj ∧ (obj = PyNone ∨ ∃ s, obj = PyStr s).
Proof. destruct obj; simpl; intros H; try discriminate; injection H as <-; eauto. Qed.

Lemma check_choice_Ok name obj allowed c :
  check name obj TStr (Some allowed) = Ok c →
  ∃ s, obj = PyStr s ∧ c = PyStr s ∧ s ∈ allowed.
Proof.
  destruct obj as [| | |s| | |]; unfold check; cbn [has_type in_choices];
    try discriminate.
  case_bool_decide; [|discriminate]. intros [= <-]. eauto.
Qed.

Lemma check_choice_in name obj allowed :
  in_choices obj allowed = true → check name obj TStr (Some allowed) = Ok obj.
Proof.
  destruct obj; cbn [in_choices]; try discriminate.
  unfold check; cbn [has_type in_choices]. by intros ->.
Qed.

Lemma check_choice_out name obj allowed :
  in_choices obj allowed = false →
  ∃ e, check name obj TStr (Some allowed) = Err e ∧ names_field e name.
Proof.
  unfold check. intros ->.
  destruct (has_type obj TStr); eexists; (split; [reflexivity|done]).
Qed.

Lemma in_choices_elem s allowed :
  s ∈ allowed → in_choices (PyStr s) allowed = true.
Proof. intros H. cbn [in_choices]. by rewrite bool_decide_eq_true. Qed.

(** ** Collections *)

Lemma build_no_empty_array self kwargs req key :
  key ∈ collections →
  build self kwargs = Ok req →
  dict_get key req ≠ Some (PyList []).
Proof.
  unfold collections. rewrite !elem_of_cons, elem_of_nil.
  intros Hkey H. build_inv H.
  destruct Hkey as [->|[->|[->|[]]]]; frame.
  all: match goal with
       | E : when_in ?kw ?key _ _ = Ok ?r |- dict_get ?key ?r ≠ _ =>
           unfold when_in in E; destruct (kw !! key) eqn:?; inv_body E;
           rewrite ?dict_get_set_eq; frame; try done
       end.
  all: intros [= ->];
       match goal with
       | Hn : len _ = Ok ?n, Hi : iter _ = Ok ?items, Hf : for_each _ _ = Ok [] |- _ =>
           apply for_each_length in Hf; apply (len_iter _ _ _ Hn) in Hi;
           simpl in Hf; lia
       end.
Qed.

Lemma build_collection api kwargs req key items :
  key ∈ collections →
  build (endpoint api) kwargs = Ok req →
  kwargs !! key = Some (PyList items) →
  match items with
  | [] => dict_get key req = None
  | _ :: _ =>
      ∃ entries, dict_get key req = Some (PyList entries)
                 ∧ Forall2 (element_shape key) items entries
  end.
Proof.
  unfold collections. rewrite !elem_of_cons, elem_of_nil.
  intros Hkey H Hkw. build_inv H.
  destruct Hkey as [->|[->|[->|[]]]]; frame.
  all: match goal with
       | E : when_in ?kw ?key _ _ = Ok ?r |- context [dict_get ?key ?r] =>
           unfold when_in in E; rewrite Hkw in E; inv_body E;
           rewrite ?dict_get_set_eq; frame
       end.
  all: repeat match goal with
       | Hn : len (PyList _) = Ok _ |- _ => injection Hn as <-
       | Hi : iter (PyList _) = Ok _ |- _ => injection Hi as <-
       end.
  all: destruct items as [|item items]; try done.
  all: eexists; split; [done|].
  all: match goal with
       | Hf : for_each _ _ = Ok _ |- _ =>
           apply for_each_Forall2 in Hf;
           eapply Forall2_impl; [exact Hf|]
       end.
  all: cbv beta; intros x y Hxy; inv_body Hxy.
  all: repeat match goal with
       | Hc : _check (endpoint _) _ _ TInt None = Ok _ |- _ =>
           apply check_int_Ok in Hc as (? & -> & ->)
       | Hc : _check (endpoint _) _ _ TStr (Some _) = Ok _ |- _ =>
           apply check_choice_Ok in Hc as (? & -> & -> & ?)
       end.
  - do 2 eexists. eauto.
  - eexists. eauto.
  - eexists. eauto.
Qed.

(** ** Enumerated keywords *)

Lemma build_enumerated_Ok self kwargs req key allowed v :
  (key, allowed) ∈ enumerated →
  build self kwargs = Ok req →
  kwargs !! key = Some v →
  ∃ c, _check self key v TStr (Some allowed) = Ok c
       ∧ dict_get (emitted key c).1 req = Some (emitted key c).2.
Proof.
  unfold enumerated. rewrite !elem_of_cons, elem_of_nil.
  intros Hkey H Hkw. build_inv H.
  destruct Hkey as [[= -> ->]|[[= -> ->]|[[= -> ->]|[]]]]; cbn [emitted String.eqb Ascii.eqb Bool.eqb fst snd].
  all: match goal with
       | E : when_in ?kw ?key _ _ = Ok _ |- ∃ _, _check _ ?key _ _ _ = _ ∧ _ =>
           unfold when_in in E; rewrite Hkw in E; inv_body E
       end.
  all: eexists; split; [eassumption|]; simpl; frame; by rewrite dict_get_set_eq.
Qed.

Lemma build_collection_ids api kwargs req key x :
  key ∈ collections →
  build (endpoint api) kwargs = Ok req →
  dict_get key req = Some x →
  ∃ entries, x = PyList entries ∧ Forall has_int_id entries.
Proof.
  unfold collections. rewrite !elem_of_cons, elem_of_nil.
  intros Hkey H. build_inv H.
  destruct Hkey as [->|[->|[->|[]]]]; frame.
  all: match goal with
       | E : when_in ?kw ?key _ _ = Ok ?r |- dict_get ?key ?r = _ → _ =>
           unfold when_in in E; destruct (kw !! key) eqn:?; inv_body E;
           rewrite ?dict_get_set_eq; frame; try done
       end.
  all: intros [= <-]; eexists; split; [done|].
  all: match goal with
       | Hf : for_each _ _ = Ok _ |- _ =>
           apply for_each_Forall2 in Hf;
           eapply Forall2_Forall_r; [exact Hf|]
       end.
  all: apply Forall_forall; intros item _ entry Hxy; cbv beta in Hxy; inv_body Hxy.
  all: repeat match goal with
       | Hc : _check (endpoint _) _ _ TInt None = Ok _ |- _ =>
           apply check_int_Ok in Hc as (? & -> & ->)
       end.
  all: by do 2 eexists.
Qed.

(** ** The first offending keyword decides the exception *)

Lemma bind_Ok_l {A B} (a : A) (f : A → result B) : Ok a ≫= f = f a.
Proof. reflexivity. Qed.

Lemma when_in_delete_ne (kwargs : Kwargs) k key r body :
  k ≠ key → when_in (delete k kwargs) key r body = when_in kwargs key r body.
Proof. intros Hne. unfold when_in. by rewrite lookup_delete_ne. Qed.

Lemma when_in_Some (kwargs : Kwargs) key r body v :
  kwargs !! key = Some v → when_in kwargs key r body = body v.
Proof. intros H. unfold when_in. by rewrite H. Qed.

Lemma kwarg_delete_ne (kwargs : Kwargs) k key :
  k ≠ key → kwarg (delete k kwargs) key = kwarg kwargs key.
Proof. intros Hne. unfold kwarg. by rewrite lookup_delete_ne. Qed.

(** From a successful run without the keyword [k], replay the blocks that
    come before the block of [k] in the run [He] with it. *)
Ltac replay He :=
  unfold WasScanAPI._build_creation_or_update_request in He;
  repeat match goal with
  | E : kwarg (delete _ _) _ = _ |- _ =>
      rewrite kwarg_delete_ne in E by done
  | E : when_in (delete _ _) _ _ _ = _ |- _ =>
      rewrite when_in_delete_ne in E by done
  end;
  repeat match goal with
  | E : ?m = Ok _ |- _ =>
      match type of He with
      | m ≫= _ = _ => rewrite E, bind_Ok_l in He; cbv beta in He
      end
  end.

Lemma build_enumerated_Err api kwargs key allowed v :
  (key, allowed) ∈ enumerated →
  kwargs !! key = Some v →
  in_choices v allowed = false →
  ∃ e, build (endpoint api) kwargs = Err e
       ∧ (is_err (build (endpoint api) (delete key kwargs)) = false →
          names_field e key).
Proof.
  intros Hkey Hkw Hout.
  destruct (not_Ok_Err (build (endpoint api) kwargs)) as [e He].
  { intros req H.
    destruct (build_enumerated_Ok _ _ _ _ _ _ Hkey H Hkw) as (c & Hc & _).
    destruct (check_choice_out key v allowed Hout) as (e & He & _).
    simpl in Hc. congruence. }
  exists e. split; [done|].
  destruct (build (endpoint api) (delete key kwargs)) as [r0|] eqn:H; [intros _|done].
  destruct (check_choice_out key v allowed Hout) as (e' & He' & Hname).
  revert Hkw He He' H.
  unfold enumerated in Hkey. rewrite !elem_of_cons, elem_of_nil in Hkey.
  destruct Hkey as [[= -> ->]|[[= -> ->]|[[= -> ->]|[]]]]; intros Hkw He He' H.
  all: build_inv H; replay He.
  all: rewrite (when_in_Some _ _ _ _ _ Hkw) in He; simpl _check in He.
  all: rewrite He' in He; by injection He as <-.
Qed.

Lemma report_shape_Ok api item entry :
  report_shape item entry →
  (r0 ← item_at item 0;
   id ← _check (endpoint api) "report_id" r0 TInt None;
   r1 ← item_at item 1;
   source ← _check (endpoint api) "reportSource" r1 TStr (Some report_sources);
   Ok (PyDict [("id", id); ("reportSource", source)])) = Ok entry.
Proof.
  intros (n & src & H0 & H1 & Hsrc & ->).
  rewrite H0, bind_Ok_l. simpl _check. cbn [check has_type]. rewrite bind_Ok_l.
  rewrite H1, bind_Ok_l.
  by rewrite (check_choice_in _ _ _ (in_choices_elem _ _ Hsrc)).
Qed.

Lemma build_report_source_Err api kwargs good bad rest v :
  kwargs !! "reports" = Some (PyList (good ++ bad :: rest)) →
  item_at bad 1 = Ok v →
  in_choices v report_sources = false →
  ∃ e, build (endpoint api) kwargs = Err e
       ∧ (is_err (build (endpoint api) (delete "reports" kwargs)) = false →
          Forall (λ item, ∃ entry, report_shape item entry) good →
          (∃ n, item_at bad 0 = Ok (PyInt n)) →
          names_field e "reportSource").
Proof.
  intros Hkw Hbad Hout.
  destruct (not_Ok_Err (build (endpoint api) kwargs)) as [e He].
  { intros req H.
    pose proof (build_collection api kwargs req "reports" _
                  ltac:(unfold collections; repeat constructor) H Hkw) as Hc.
    destruct (good ++ bad :: rest) as [|x xs] eqn:Hl; [by destruct good|].
    destruct Hc as (entries & _ & Hc). rewrite <- Hl in Hc.
    apply Forall2_app_inv_l in Hc as (? & ? & _ & Hc & _).
    apply Forall2_cons_inv_l in Hc as (? & ? & (n & src & _ & H1 & Hsrc & _) & _).
    rewrite Hbad in H1. injection H1 as ->.
    by rewrite (in_choices_elem _ _ Hsrc) in Hout. }
  exists e. split; [done|].
  destruct (build (endpoint api) (delete "reports" kwargs)) as [r0|] eqn:H;
    [intros _|done].
  intros Hgood [n Hid].
  destruct (check_choice_out "reportSource" v report_sources Hout)
    as (e' & He' & Hname).
  build_inv H; replay He.
  rewrite (when_in_Some _ _ _ _ _ Hkw) in He.
  cbn [len iter] in He. rewrite bind_Ok_l in He.
  assert ((0 <? Z.of_nat (length (good ++ bad :: rest))) = true) as Hpos
    by (apply Z.ltb_lt; rewrite length_app; simpl; lia).
  rewrite Hpos in He.
  rewrite bind_Ok_l in He.
  rewrite (for_each_first_Err _ good bad rest e') in He.
  - by injection He as <-.
  - eapply Forall_impl; [exact Hgood|].
    intros item [entry Hs]. exists entry. by apply report_shape_Ok.
  - rewrite Hid, bind_Ok_l. simpl _check. cbn [check has_type].
    rewrite bind_Ok_l, Hbad, bind_Ok_l. fold report_sources. by rewrite He'.
Qed.

(** ** Dispatch *)

Lemma send_unwrapped self v p ps js :
  (body ← send self v p ps js; pure (item body "response"))
  = ([{| verb := v; path := p; params := ps; json := js |}],
     unwrapped (_api self {| verb := v; path := p; params := ps; json := js |})).
Proof.
  unfold send, unwrapped, pure, mbind, call_bind, result_bind.
  by destruct (_api self _).
Qed.

Lemma pure_Ok_bind {A B} (a : A) (f : A → Call B) : pure (Ok a) ≫= f = f a.
Proof.
  unfold pure, mbind, call_bind. by destruct (f a).
Qed.

(** ** Which keywords can make the builder raise *)

Lemma raised_bind_same {A B B'} (m : result A)
    (G : A → result B) (G' : A → result B') :
  (∀ a, raised (G a) = raised (G' a)) →
  raised (m ≫= G) = raised (m ≫= G').
Proof. intros H. destruct m; simpl; auto. Qed.

Lemma raised_bind_congr {A A' B B'} (m : result A) (m' : result A')
    (G : A → result B) (G' : A' → result B') :
  raised m = raised m' →
  (∀ a a', raised (G a) = raised (G' a')) →
  raised (m ≫= G) = raised (m' ≫= G').
Proof. intros Hm H. destruct m, m'; simpl in *; auto; discriminate. Qed.

Lemma kwarg_insert_ne (kwargs : Kwargs) k v key :
  k ≠ key → kwarg (<[k:=v]> kwargs) key = kwarg kwargs key.
Proof. intros Hne. unfold kwarg. by rewrite lookup_insert_ne. Qed.

(** One block against the same block on another request and other keyword
    arguments: split on every lookup and every result the two sides
    scrutinise. *)
Ltac raised_block :=
  unfold when_in;
  rewrite ?lookup_insert_eq, ?lookup_delete_eq;
  rewrite ?lookup_insert_ne, ?lookup_delete_ne by done;
  unfold mbind, result_bind;
  repeat match goal with
  | H : ?x = _ |- context [match ?x with _ => _ end] => rewrite H
  | |- context [match ?x with _ => _ end] => destruct x eqn:?
  end;
  try reflexivity; try discriminate.

Ltac raised_blocks :=
  repeat (apply raised_bind_congr; [raised_block | intros ? ?]);
  try reflexivity.


Lemma build_checked_accepted self kwargs key choices v c :
  (key, choices) ∈ checked →
  kwargs !! key = Some v →
  _check self key v TStr choices = Ok c →
  raised (build self kwargs) = raised (build self (delete key kwargs)).
Proof.
  unfold checked. rewrite !elem_of_cons, elem_of_nil.
  intros Hkey Hkw Hc. revert Hkw Hc.
  unfold WasScanAPI._build_creation_or_update_request.
  repeat (destruct Hkey as [[= -> ->]|Hkey];
    [intros Hkw Hc; rewrite kwarg_delete_ne by done;
     apply raised_bind_same; intros name; raised_blocks|]).
  done.
Qed.

(** The same replay, in the goal. *)
Ltac replay_goal :=
  unfold WasScanAPI._build_creation_or_update_request;
  repeat match goal with
  | E : kwarg (delete _ _) _ = _ |- _ =>
      rewrite kwarg_delete_ne in E by done
  | E : when_in (delete _ _) _ _ _ = _ |- _ =>
      rewrite when_in_delete_ne in E by done
  end;
  repeat match goal with
  | E : ?m = Ok _ |- ?m ≫= _ = _ => rewrite E, bind_Ok_l; cbv beta
  end.

Lemma build_checked_rejected self kwargs key choices v e :
  (key, choices) ∈ checked →
  kwargs !! key = Some v →
  _check self key v TStr choices = Err e →
  raised (build self (delete key kwargs)) = None →
  build self kwargs = Err e.
Proof.
  unfold checked. rewrite !elem_of_cons, elem_of_nil.
  intros Hkey Hkw Hc Hrest.
  destruct (build self (delete key kwargs)) as [r0|] eqn:H; [clear Hrest|done].
  revert Hkw Hc H.
  repeat (destruct Hkey as [[= -> ->]|Hkey];
    [intros Hkw Hc H; build_inv H; replay_goal;
     by rewrite (when_in_Some _ _ _ _ _ Hkw), Hc|]).
  done.
Qed.

(** ** The keys of a request *)

Lemma dict_set_fresh k v (d : dict) :
  k ∉ d.*1 → dict_set k v d = d ++ [(k, v)].
Proof.
  induction d as [|[k' v'] d IH]; simpl; [done|].
  rewrite not_elem_of_cons. intros [Hne Hd].
  apply String.eqb_neq in Hne as ->. by rewrite IH.
Qed.

Lemma when_in_keys (P : list string) kwargs key out r body r' :
  when_in kwargs key r body = Ok r' →
  (∀ v, body v = Ok r' → r' = r ∨ ∃ c, r' = dict_set out c r) →
  out ∉ P →
  r.*1 `sublist_of` P →
  r'.*1 `sublist_of` P ++ [out].
Proof.
  unfold when_in. intros H Hb Hout Hr.
  assert (r' = r ∨ ∃ c, r' = dict_set out c r) as [->|[c ->]].
  { destruct (kwargs !! key) as [v|]; [eauto|]. injection H as <-. by left. }
  - by apply sublist_inserts_r.
  - rewrite dict_set_fresh.
    + rewrite fmap_app. by apply sublist_app.
    + intros Hin. apply Hout. by eapply elem_of_sublist.
Qed.

Lemma build_keys self kwargs req :
  build self kwargs = Ok req →
  req.*1 `sublist_of` output_keys.
Proof.
  intros H. build_inv H.
  assert (r0.*1 `sublist_of` ["name"]) as Hkeys.
  { destruct (truthy r); inv_body E0; [|apply sublist_nil_l].
    simpl. reflexivity. }
  repeat match goal with
  | E : when_in _ ?key ?r ?body = Ok ?r', Hk : ?r.*1 `sublist_of` ?P |- _ =>
      match body with
      | context [dict_set ?out _ r] =>
          apply (when_in_keys P _ key out _ _ _ E) in Hk;
          [ | origin_side | apply (bool_decide_unpack _); vm_compute; exact I ]
      end
  end.
  exact Hkeys.
Qed.

(** ** Strings and collections under any validator *)

Lemma build_checked_field self kwargs req key choices :
  (key, choices) ∈ checked →
  build self kwargs = Ok req →
  match kwargs !! key with
  | Some v =>
      ∃ c, _check self key v TStr choices = Ok c
           ∧ dict_get (emitted key c).1 req = Some (emitted key c).2
  | None => ∀ c, dict_get (emitted key c).1 req = None
  end.
Proof.
  unfold checked. rewrite !elem_of_cons, elem_of_nil.
  intros Hkey H. build_inv H.
  destruct Hkey as [[= -> ->]|[[= -> ->]|[[= -> ->]|[[= -> ->]|[[= -> ->]|
                   [[= -> ->]|[]]]]]]];
    cbn [emitted String.eqb Ascii.eqb Bool.eqb fst snd].
  - frame. own "type"; eauto.
  - frame. own "description"; eauto.
  - own "schedule_type".
    + eexists. split; [done|]. cbn [fst snd]. frame. by rewrite dict_get_set_eq.
    + intros c. cbn [fst snd]. by frame.
  - frame. own "timeoutAction"; eauto.
  - frame. own "rolloverType"; eauto.
  - frame. own "urlList"; eauto.
Qed.

Lemma build_name self kwargs req :
  build self kwargs = Ok req →
  ∃ v, kwargs !! "name" = Some v
       ∧ if truthy v
         then ∃ c, _check self "name" v TStr None = Ok c
                   ∧ dict_get "name" req = Some c
         else dict_get "name" req = None.
Proof.
  intros H. build_inv H. frame.
  unfold kwarg in E. destruct (kwargs !! "name") as [v|]; [|done].
  injection E as <-. exists v. split; [done|].
  destruct (truthy v); inv_body E0; [|done].
  eexists. split; [done|]. simpl. done.
Qed.

Lemma len_Ok_iter v n :
  len v = Ok n → ∃ items, iter v = Ok items ∧ n = Z.of_nat (length items).
Proof.
  destruct v; simpl; intros H; try discriminate; injection H as <-;
    eexists; (split; [done|]); by rewrite ?chars_length, ?length_fmap.
Qed.

Lemma build_collection_any self kwargs req key v :
  key ∈ collections →
  build self kwargs = Ok req →
  kwargs !! key = Some v →
  ∃ items, iter v = Ok items
    ∧ match items with
      | [] => dict_get key req = None
      | _ :: _ =>
          ∃ entries, dict_get key req = Some (PyList entries)
                     ∧ Forall2 (built_element self key) items entries
      end.
Proof.
  unfold collections. rewrite !elem_of_cons, elem_of_nil.
  intros Hkey H Hkw. build_inv H.
  destruct Hkey as [->|[->|[->|[]]]]; frame.
  all: match goal with
       | E : when_in ?kw ?key _ _ = Ok ?r |- context [dict_get ?key ?r] =>
           unfold when_in in E; rewrite Hkw in E; inv_body E;
           rewrite ?dict_get_set_eq; frame
       end.
  all: match goal with
       | Hn : len _ = Ok ?n |- _ =>
           destruct (len_Ok_iter _ _ Hn) as (items & Hi & ->)
       end.
  all: exists items; split; [done|].
  all: destruct items as [|item items]; try done.
  all: match goal with
       | Hi : iter ?w = Ok _, Hi' : iter ?w = Ok _ |- _ =>
           rewrite Hi in Hi'; injection Hi' as <-
       end.
  all: eexists; split; [done|].
  all: match goal with
       | Hf : for_each _ _ = Ok _ |- _ =>
           apply for_each_Forall2 in Hf;
           eapply Forall2_impl; [exact Hf|]
       end.
  all: cbv beta; intros x y Hxy; inv_body Hxy.
  all: unfold built_element; cbn [String.eqb Ascii.eqb Bool.eqb]; eauto 10.
Qed.


(** ** Dispatch under any validator *)

Lemma pure_bind {A B} (m : result A) (f : A → Call B) :
  pure m ≫= f = match m with Ok a => f a | Err e => ([], Err e) end.
Proof. destruct m; [apply pure_Ok_bind | reflexivity]. Qed.

Lemma guarded_unwrap_send {A} self (m : result A) v p ps js :
  guarded_unwrap self
    (x ← pure m; body ← send self v (p x) (ps x) (js x);
     pure (item body "response")).
Proof.
  rewrite pure_bind. destruct m as [a|e]; [right|left; eauto].
  rewrite send_unwrapped. by eexists.
Qed.

Lemma method_call_guarded self c :
  method_call self c →
  guarded_unwrap self c ∨ returns_raw self c.
Proof.
  intros [[kwargs ->]|[[fields ->]|[(scan_id & fields & ->)|
          [(scan_id & kwargs & ->)|[[scan_id ->]|(scan_id & scan_uuid & name & ->)]]]]].
  - left. apply (guarded_unwrap_send self _ POST (λ _, _) (λ _, None)
                   (λ request, Some (PyDict request))).
  - left. unfold WasScanAPI.list. cbv zeta.
    apply (guarded_unwrap_send self _ GET (λ _, _)
             (λ params, Some (PyDict params)) (λ _, None)).
  - left. unfold WasScanAPI.details. cbv zeta.
    apply (guarded_unwrap_send self _ GET (λ _, _)
             (λ params, Some (PyDict params)) (λ _, None)).
  - left. apply (guarded_unwrap_send self _ PATCH (λ _, _) (λ _, None)
                   (λ request, Some (PyDict request))).
  - right. by eexists.
  - left. unfold WasScanAPI.copy.
    destruct (_ || _); [left; eauto|].
    rewrite pure_bind. destruct (_check self "name" name TStr None) as [cn|e];
      [|left; eauto].
    rewrite pure_bind.
    destruct (if truthy scan_id then _ else _) as [[request path]|e];
      [|left; eauto].
    right. rewrite send_unwrapped. by eexists.
Qed.

Lemma for_each_strings self fs :
  (∀ s, _check self "fields" (PyStr s) TStr None = Ok (PyStr s)) →
  for_each (λ f, _check self "fields" f TStr None) (PyStr <$> fs)
  = Ok (PyStr <$> fs).
Proof.
  intros Hstr. induction fs as [|s fs IH]; [done|].
  rewrite fmap_cons. cbn [for_each]. by rewrite Hstr, bind_Ok_l, IH.
Qed.

Lemma str_join_strings sep fs :
  str_join sep (PyStr <$> fs) = Ok (PyStr (join sep fs)).
Proof.
  unfold str_join.
  assert (for_each (λ p, match p with PyStr s => Ok s | _ => Err TypeError end)
            (PyStr <$> fs) = Ok fs) as ->; [|done].
  induction fs as [|s fs IH]; [done|].
  rewrite fmap_cons. cbn [for_each]. by rewrite bind_Ok_l, IH.
Qed.


Lemma send_pure_dispatched {A} self (m : result A) v p ps js :
  dispatched (x ← pure m; body ← send self v (p x) (ps x) (js x);
              pure (item body "response"))
  = match m with
    | Ok x => [{| verb := v; path := p x; params := ps x; json := js x |}]
    | Err _ => []
    end.
Proof.
  rewrite pure_bind. destruct m as [x|e]; [|done]. by rewrite send_unwrapped.
Qed.


(** ** What the builder accepts *)

(** A falsy name and a truthy name the validator accepts make the same
    start. *)
Lemma build_name_falsy self kwargs v v' c :
  kwargs !! "name" = Some v →
  truthy v = false →
  truthy v' = true →
  _check self "name" v' TStr None = Ok c →
  raised (build self kwargs) = raised (build self (<["name":=v']> kwargs)).
Proof.
  intros Hname Hv Hv' Hc.
  unfold WasScanAPI._build_creation_or_update_request, kwarg.
  rewrite Hname, lookup_insert_eq, !bind_Ok_l. cbv beta.
  apply raised_bind_congr; [by rewrite Hv, Hv', Hc | intros ? ?].
  raised_blocks.
Qed.

Lemma for_each_accepts {A B} (f : A → result B) xs :
  Forall (λ x, ∃ y, f x = Ok y) xs → ∃ ys, for_each f xs = Ok ys.
Proof.
  induction 1 as [|x xs [y Hy] _ [ys IH]]; simpl; [by eexists|].
  rewrite Hy, IH. by eexists.
Qed.

Lemma id_shape_Ok api field item entry :
  id_shape item entry →
  (id ← _check (endpoint api) field item TInt None; Ok (PyDict [("id", id)]))
  = Ok entry.
Proof. by intros (n & -> & ->). Qed.

(** A list of valid elements never changes what the builder raises. *)
Lemma build_collection_accepted api kwargs key items :
  key ∈ collections →
  kwargs !! key = Some (PyList items) →
  Forall (λ item, ∃ entry, element_shape key item entry) items →
  raised (build (endpoint api) kwargs)
  = raised (build (endpoint api) (delete key kwargs)).
Proof.
  unfold collections. rewrite !elem_of_cons, elem_of_nil.
  intros Hkey Hkw Hvalid. revert Hkw Hvalid.
  unfold WasScanAPI._build_creation_or_update_request.
  destruct Hkey as [->|[->|[->|[]]]]; intros Hkw Hvalid.
  all: rewrite kwarg_delete_ne by done.
  all: apply raised_bind_same; intros name; raised_blocks.
  all: repeat match goal with
       | H : iter (PyList _) = Ok _ |- _ => injection H as <-
       | H : iter (PyList _) = Err _ |- _ => discriminate H
       | H : len (PyList _) = Err _ |- _ => discriminate H
       end.
  all: match goal with
       | H : for_each ?f ?xs = Err _ |- _ =>
           destruct (for_each_accepts f xs) as [ys Hys];
           [|rewrite Hys in H; discriminate H]
       end.
  all: eapply Forall_impl; [exact Hvalid|].
  all: intros item [entry Hs]; exists entry; cbv beta.
  - exact (report_shape_Ok api item entry Hs).
  - exact (id_shape_Ok api "asset" item entry Hs).
  - exact (id_shape_Ok api "credentials" item entry Hs).
Qed.

(** The requests of two runs that raise the same exception, or none. *)
Lemma raised_None_Ok {A} (m : result A) :
  raised m = None → ∃ a, m = Ok a.
Proof. destruct m; [eauto | discriminate]. Qed.

Lemma is_err_raised {A} (m : result A) :
  is_err m = false → raised m = None.
Proof. by destruct m. Qed.
(** ** Examples from the documented behaviour *)

Example list_joins_fields :
  dispatched (WasScanAPI.list (endpoint echo_api) (PyList [PyStr "id"; PyStr "name"]))
  = [{| verb := GET; path := "wasScan";
        params := Some (PyDict [("fields", PyStr "id,name")]);
        json := None |}].
Proof. reflexivity. Qed.

Example details_path :
  dispatched (WasScanAPI.details (endpoint echo_api) (PyInt 3) PyNone)
  = [{| verb := GET; path := "wasScan/3"; params := Some (PyDict []);
        json := None |}].
Proof. reflexivity. Qed.

Example bad_report_source :
  build (endpoint echo_api)
    (kwargs_of [("name", PyStr "n");
                ("reports", PyList [PyTuple [PyInt 1; PyStr "cumulative"];
                                    PyTuple [PyInt 2; PyStr "bogus"]])])
  = Err (InvalidChoice "reportSource" report_sources).
Proof. reflexivity. Qed.

(** ** The claims *)

(** C1, as the code has it.  Without [name] the builder raises the
    [KeyError] of the lookup, and [create] and [edit] raise it having
    dispatched nothing.  A [name] that is falsy, the empty string among
    them, is not rejected: the builder skips it, raising what it raises
    with a name the validator accepts, or nothing, and a request it
    returns has no [name] key. *)
Theorem name_absent_fails_falsy_dropped self kwargs :
  (kwargs !! "name" = None →
   build self kwargs = Err (KeyError (PyStr "name"))
   ∧ WasScanAPI.create self kwargs = ([], Err (KeyError (PyStr "name")))
   ∧ ∀ scan_id,
       WasScanAPI.edit self scan_id kwargs = ([], Err (KeyError (PyStr "name"))))
  ∧ (∀ v req,
       kwargs !! "name" = Some v → truthy v = false →
       build self kwargs = Ok req → dict_get "name" req = None)
  ∧ (∀ v v' c,
       kwargs !! "name" = Some v → truthy v = false →
       truthy v' = true → _check self "name" v' TStr None = Ok c →
       raised (build self kwargs)
       = raised (build self (<["name":=v']> kwargs))).
Proof.
  split; [|split].
  - intros Hname.
    assert (build self kwargs = Err (KeyError (PyStr "name"))) as Hb.
    { unfold WasScanAPI._build_creation_or_update_request, kwarg.
      by rewrite Hname. }
    unfold WasScanAPI.create, WasScanAPI.edit. by rewrite Hb.
  - intros v req Hname Hv H. build_inv H. frame.
    unfold kwarg in E. rewrite Hname in E. injection E as <-.
    rewrite Hv in E0. by injection E0 as <-.
  - intros v v' c. apply build_name_falsy.
Qed.

Lemma name_absent_fails_falsy_dropped_witness :
  let absent := kwargs_of [("type", PyStr "t")] in
  let empty := kwargs_of [("name", PyStr ""); ("type", PyStr "t")] in
  let none := kwargs_of [("name", PyNone); ("urlList", PyInt 3)] in
  let req := [("type", PyStr "t")] in
  (absent !! "name" = None
   ∧ WasScanAPI.create (endpoint echo_api) absent
     = ([], Err (KeyError (PyStr "name"))))
  ∧ (build (endpoint echo_api) empty = Ok req ∧ dict_get "name" req = None)
  ∧ raised (build (endpoint echo_api) empty) = None
  ∧ raised (build (endpoint echo_api) none)
    = Some (InvalidType "urlList" TStr).
Proof.
  intros absent empty none req.
  destruct (name_absent_fails_falsy_dropped (endpoint echo_api) absent)
    as (Habsent & _ & _).
  destruct (name_absent_fails_falsy_dropped (endpoint echo_api) empty)
    as (_ & Hempty & Hsame).
  destruct (name_absent_fails_falsy_dropped (endpoint echo_api) none)
    as (_ & _ & Hnone).
  split; [split|split; [split|split]].
  - reflexivity.
  - apply Habsent. reflexivity.
  - reflexivity.
  - apply (Hempty (PyStr "") req); reflexivity.
  - rewrite (Hsame (PyStr "") (PyStr "n") (PyStr "n")); reflexivity.
  - rewrite (Hnone PyNone (PyStr "n") (PyStr "n")); reflexivity.
Defined.

(** C1 as stated fails: with [name=""] the builder raises nothing and
    returns a request, an empty one, which [create] posts. *)
Lemma empty_name_is_sent :
  let kwargs := kwargs_of [("name", PyStr "")] in
  kwargs !! "name" = Some (PyStr "")
  ∧ is_err (build (endpoint echo_api) kwargs) = false
  ∧ build (endpoint echo_api) kwargs = Ok []
  ∧ dispatched (WasScanAPI.create (endpoint echo_api) kwargs)
    = [{| verb := POST; path := "wasScan"; params := None;
          json := Some (PyDict []) |}].
Proof. by vm_compute. Qed.

(** C2.  For [schedule_type], [timeoutAction] and [rolloverType], a value
    among the choices the builder passes to the validator is accepted and
    is in the request unchanged, and a value outside them makes the
    builder raise; so it is with the sources of the reports, whose valid
    elements are accepted and are in the request unchanged.  Accepted
    means that the builder returns a request whenever it returns one
    without the keyword.  The exception is a validation error naming the
    field when the field is the first the builder rejects: when the other
    keywords are accepted without it and, for a report, the reports before
    it are valid and its own id is an integer. *)
Theorem enumerated_fields_validated api kwargs :
  (∀ key allowed v,
     (key, allowed) ∈ enumerated → kwargs !! key = Some v →
     (in_choices v allowed = true →
      ∀ req, build (endpoint api) kwargs = Ok req →
             dict_get (emitted key v).1 req = Some (emitted key v).2)
     ∧ (in_choices v allowed = false →
        ∃ e, build (endpoint api) kwargs = Err e
             ∧ (is_err (build (endpoint api) (delete key kwargs)) = false →
                names_field e key)))
  ∧ (∀ item items req,
       kwargs !! "reports" = Some (PyList (item :: items)) →
       build (endpoint api) kwargs = Ok req →
       ∃ entries, dict_get "reports" req = Some (PyList entries)
                  ∧ Forall2 report_shape (item :: items) entries)
  ∧ (∀ good bad rest v,
       kwargs !! "reports" = Some (PyList (good ++ bad :: rest)) →
       item_at bad 1 = Ok v →
       in_choices v report_sources = false →
       ∃ e, build (endpoint api) kwargs = Err e
            ∧ (is_err (build (endpoint api) (delete "reports" kwargs)) = false →
               Forall (λ item, ∃ entry, report_shape item entry) good →
               (∃ n, item_at bad 0 = Ok (PyInt n)) →
               names_field e "reportSource"))
  ∧ (∀ key allowed v,
       (key, allowed) ∈ enumerated → kwargs !! key = Some v →
       in_choices v allowed = true →
       is_err (build (endpoint api) (delete key kwargs)) = false →
       ∃ req, build (endpoint api) kwargs = Ok req
              ∧ dict_get (emitted key v).1 req = Some (emitted key v).2)
  ∧ (∀ item items,
       kwargs !! "reports" = Some (PyList (item :: items)) →
       Forall (λ report, ∃ entry, report_shape report entry) (item :: items) →
       is_err (build (endpoint api) (delete "reports" kwargs)) = false →
       ∃ req entries,
         build (endpoint api) kwargs = Ok req
         ∧ dict_get "reports" req = Some (PyList entries)
         ∧ Forall2 report_shape (item :: items) entries).
Proof.
  assert (∀ key allowed v req,
            (key, allowed) ∈ enumerated → kwargs !! key = Some v →
            in_choices v allowed = true →
            build (endpoint api) kwargs = Ok req →
            dict_get (emitted key v).1 req = Some (emitted key v).2) as Hthrough.
  { intros key allowed v req Hkey Hkw Hin H.
    destruct (build_enumerated_Ok _ _ _ _ _ _ Hkey H Hkw) as (c & Hc & Hget).
    simpl in Hc. rewrite (check_choice_in _ _ _ Hin) in Hc.
    by injection Hc as <-. }
  split; [|split; [|split; [|split]]].
  - intros key allowed v Hkey Hkw. split.
    + intros Hin req H. by eapply Hthrough.
    + intros Hout.
      exact (build_enumerated_Err api kwargs key allowed v Hkey Hkw Hout).
  - intros item items req Hkw H.
    exact (build_collection api kwargs req "reports" _
             ltac:(unfold collections; repeat constructor) H Hkw).
  - intros good bad rest v. apply build_report_source_Err.
  - intros key allowed v Hkey Hkw Hin Hrest.
    assert ((key, Some allowed) ∈ checked) as Hchecked.
    { revert Hkey. unfold enumerated, checked.
      rewrite !elem_of_cons, elem_of_nil.
      intros [[= -> ->]|[[= -> ->]|[[= -> ->]|[]]]]; auto 10. }
    pose proof (build_checked_accepted (endpoint api) kwargs key (Some allowed)
                  v v Hchecked Hkw (check_choice_in key v allowed Hin)) as Hsame.
    rewrite (is_err_raised _ Hrest) in Hsame.
    destruct (raised_None_Ok _ Hsame) as [req H].
    exists req. split; [done|]. by eapply Hthrough.
  - intros item items Hkw Hvalid Hrest.
    pose proof (build_collection_accepted api kwargs "reports" (item :: items)
                  ltac:(unfold collections; repeat constructor) Hkw Hvalid)
      as Hsame.
    rewrite (is_err_raised _ Hrest) in Hsame.
    destruct (raised_None_Ok _ Hsame) as [req H].
    destruct (build_collection api kwargs req "reports" _
                ltac:(unfold collections; repeat constructor) H Hkw)
      as (entries & Hget & Hall).
    by exists req, entries.
Qed.

Lemma enumerated_fields_validated_witness :
  let accepted :=
    kwargs_of [("name", PyStr "n"); ("schedule_type", PyStr "ical");
               ("reports", PyList [PyTuple [PyInt 1; PyStr "cumulative"]])] in
  let req :=
    [("name", PyStr "n"); ("schedule", PyDict [("type", PyStr "ical")]);
     ("reports", PyList [PyDict [("id", PyInt 1);
                                 ("reportSource", PyStr "cumulative")]])] in
  let rejected :=
    kwargs_of [("name", PyStr "n"); ("timeoutAction", PyStr "bogus")] in
  let bad_report :=
    kwargs_of [("name", PyStr "n");
               ("reports", PyList [PyTuple [PyInt 1; PyStr "cumulative"];
                                   PyTuple [PyInt 2; PyStr "bogus"]])] in
  (build (endpoint echo_api) accepted = Ok req
   ∧ dict_get "schedule" req = Some (PyDict [("type", PyStr "ical")]))
  ∧ (∃ e, build (endpoint echo_api) rejected = Err e
          ∧ names_field e "timeoutAction")
  ∧ (∃ e, build (endpoint echo_api) bad_report = Err e
          ∧ names_field e "reportSource")
  ∧ (∃ req', build (endpoint echo_api) accepted = Ok req'
             ∧ dict_get "schedule" req' = Some (PyDict [("type", PyStr "ical")]))
  ∧ (∃ req' entries,
       build (endpoint echo_api) accepted = Ok req'
       ∧ dict_get "reports" req' = Some (PyList entries)
       ∧ Forall2 report_shape [PyTuple [PyInt 1; PyStr "cumulative"]] entries).
Proof.
  intros accepted req rejected bad_report.
  destruct (enumerated_fields_validated echo_api accepted)
    as (Hacc & _ & _ & Henum & Hreports).
  destruct (enumerated_fields_validated echo_api rejected) as (Hrej & _).
  destruct (enumerated_fields_validated echo_api bad_report)
    as (_ & _ & Hrep & _).
  assert (∃ entry, report_shape (PyTuple [PyInt 1; PyStr "cumulative"]) entry)
    as Hvalid.
  { exists (PyDict [("id", PyInt 1); ("reportSource", PyStr "cumulative")]),
           1, "cumulative".
    repeat split. unfold report_sources. repeat constructor. }
  split; [split|split; [|split; [|split]]].
  - reflexivity.
  - refine (proj1 (Hacc "schedule_type" _ (PyStr "ical") _ _) _ req _);
      [unfold enumerated; repeat constructor | reflexivity | reflexivity
      | reflexivity].
  - destruct (proj2 (Hrej "timeoutAction" _ (PyStr "bogus")
                ltac:(unfold enumerated; repeat constructor) eq_refl) eq_refl)
      as (e & He & Hname).
    exists e. split; [exact He | apply Hname; reflexivity].
  - destruct (Hrep [PyTuple [PyInt 1; PyStr "cumulative"]]
                (PyTuple [PyInt 2; PyStr "bogus"]) [] (PyStr "bogus")
                eq_refl eq_refl eq_refl) as (e & He & Hname).
    exists e. split; [exact He|]. apply Hname; [reflexivity | |].
    + repeat constructor. exact Hvalid.
    + by exists 2.
  - apply (Henum "schedule_type" ["ical"; "never"; "rollover"; "template"]
             (PyStr "ical"));
      [unfold enumerated; repeat constructor | reflexivity | reflexivity
      | reflexivity].
  - apply Hreports; [reflexivity | | reflexivity].
    repeat constructor. exact Hvalid.
Defined.

(** C3.  When [scan_id] and [scan_uuid] are both given (neither is None) or
    both left out (both are None), [copy] raises its [ValueError] and has
    dispatched no request. *)
Theorem copy_requires_exactly_one self scan_id scan_uuid name :
  (is_none scan_id = false ∧ is_none scan_uuid = false)
  ∨ (is_none scan_id = true ∧ is_none scan_uuid = true) →
  WasScanAPI.copy self scan_id scan_uuid name
  = ([], Err (ValueError exactly_one_message)).
Proof.
  intros [[H1 H2]|[H1 H2]]; unfold WasScanAPI.copy; by rewrite H1, H2.
Qed.

Lemma copy_requires_exactly_one_witness :
  WasScanAPI.copy (endpoint echo_api) (PyInt 1) (PyStr "x") (PyStr "n")
  = ([], Err (ValueError exactly_one_message))
  ∧ WasScanAPI.copy (endpoint echo_api) PyNone PyNone (PyStr "n")
    = ([], Err (ValueError exactly_one_message)).
Proof.
  split; apply copy_requires_exactly_one;
    [left | right]; split; reflexivity.
Defined.

(** C4.  In a request the builder returns, [repository.id], [zone.id],
    [classifyMitigatedAge] and [maxScanTime] are strings, for an integer
    its decimal digits, so that [repository_id=5] gives
    [{"repository": {"id": "5"}}]; the id of every element of [reports],
    [assets] and [credentials] is still an integer. *)
Theorem numeric_fields_as_strings api kwargs req :
  build (endpoint api) kwargs = Ok req →
  (dict_get "repository" req
     = (λ v, PyDict [("id", PyStr (str v))]) <$> kwargs !! "repository_id"
   ∧ dict_get "zone" req
     = (λ v, PyDict [("id", PyStr (str v))]) <$> kwargs !! "zone_id"
   ∧ dict_get "classifyMitigatedAge" req
     = (λ v, PyStr (str v)) <$> kwargs !! "classifyMitigatedAge"
   ∧ dict_get "maxScanTime" req
     = (λ v, PyStr (str v)) <$> kwargs !! "maxScanTime")
  ∧ (∀ n, str (PyInt n) = pretty n)
  ∧ (kwargs !! "repository_id" = Some (PyInt 5) →
     dict_get "repository" req = Some (PyDict [("id", PyStr "5")]))
  ∧ (∀ key x, key ∈ collections → dict_get key req = Some x →
     ∃ entries, x = PyList entries ∧ Forall has_int_id entries).
Proof.
  intros H. split; [by apply (build_stringified (endpoint api))|].
  split; [done|]. split.
  - intros H5. destruct (build_stringified _ _ _ H) as [-> _]. by rewrite H5.
  - intros key x Hkey Hx.
    exact (build_collection_ids api kwargs req key x Hkey H Hx).
Qed.

Lemma numeric_fields_as_strings_witness :
  let kwargs :=
    kwargs_of [("name", PyStr "n"); ("repository_id", PyInt 5);
               ("maxScanTime", PyInt 3600); ("assets", PyList [PyInt 7])] in
  let req :=
    [("name", PyStr "n"); ("repository", PyDict [("id", PyStr "5")]);
     ("assets", PyList [PyDict [("id", PyInt 7)]]);
     ("maxScanTime", PyStr "3600")] in
  build (endpoint echo_api) kwargs = Ok req
  ∧ dict_get "repository" req = Some (PyDict [("id", PyStr "5")]).
Proof.
  intros kwargs req.
  assert (build (endpoint echo_api) kwargs = Ok req) as H by reflexivity.
  split; [exact H|].
  destruct (numeric_fields_as_strings echo_api kwargs req H) as (_ & _ & H5 & _).
  apply H5. reflexivity.
Defined.



(** C6.  For each of [reports], [assets] and [credentials]: passed as an
    empty list it leaves no key in the request, no request ever holds an
    empty array under it, and passed as a non-empty list it is a list of
    as many objects, [{"id": n, "reportSource": s}] for a report and
    [{"id": n}] for an asset or a credential.  A list of valid elements,
    the empty list among them, is accepted: the builder returns a request,
    with that list or without the key, whenever it returns one without
    the keyword. *)
Theorem collections_suppressed_or_shaped api kwargs key :
  key ∈ collections →
  (∀ req,
     build (endpoint api) kwargs = Ok req →
     (kwargs !! key = Some (PyList []) → dict_get key req = None)
     ∧ dict_get key req ≠ Some (PyList [])
     ∧ (∀ item items,
          kwargs !! key = Some (PyList (item :: items)) →
          ∃ entries, dict_get key req = Some (PyList entries)
                     ∧ Forall2 (element_shape key) (item :: items) entries))
  ∧ (∀ items,
       kwargs !! key = Some (PyList items) →
       Forall (λ item, ∃ entry, element_shape key item entry) items →
       is_err (build (endpoint api) (delete key kwargs)) = false →
       ∃ req,
         build (endpoint api) kwargs = Ok req
         ∧ match items with
           | [] => dict_get key req = None
           | _ :: _ =>
               ∃ entries, dict_get key req = Some (PyList entries)
                          ∧ Forall2 (element_shape key) items entries
           end).
Proof.
  intros Hkey. split.
  - intros req H. repeat split.
    + intros Hkw. exact (build_collection _ _ _ _ _ Hkey H Hkw).
    + by apply (build_no_empty_array (endpoint api) kwargs).
    + intros item items Hkw. exact (build_collection _ _ _ _ _ Hkey H Hkw).
  - intros items Hkw Hvalid Hrest.
    pose proof (build_collection_accepted api kwargs key items Hkey Hkw Hvalid)
      as Hsame.
    rewrite (is_err_raised _ Hrest) in Hsame.
    destruct (raised_None_Ok _ Hsame) as [req H].
    exists req. split; [done|].
    exact (build_collection _ _ _ _ _ Hkey H Hkw).
Qed.

Lemma collections_suppressed_or_shaped_witness :
  let kwargs :=
    kwargs_of [("name", PyStr "n"); ("reports", PyList []);
               ("credentials", PyList [PyInt 4; PyInt 8])] in
  let req :=
    [("name", PyStr "n");
     ("credentials", PyList [PyDict [("id", PyInt 4)]; PyDict [("id", PyInt 8)]])] in
  let with_report :=
    kwargs_of [("name", PyStr "n");
               ("reports", PyList [PyTuple [PyInt 1; PyStr "cumulative"]])] in
  build (endpoint echo_api) kwargs = Ok req
  ∧ dict_get "reports" req = None
  ∧ (∃ entries, dict_get "credentials" req = Some (PyList entries)
                ∧ Forall2 id_shape [PyInt 4; PyInt 8] entries)
  ∧ (∃ req' entries,
       build (endpoint echo_api) with_report = Ok req'
       ∧ dict_get "reports" req' = Some (PyList entries)
       ∧ Forall2 report_shape [PyTuple [PyInt 1; PyStr "cumulative"]] entries)
  ∧ build (endpoint echo_api) with_report
    = Ok [("name", PyStr "n");
          ("reports", PyList [PyDict [("id", PyInt 1);
                                      ("reportSource", PyStr "cumulative")]])].
Proof.
  intros kwargs req with_report.
  assert (build (endpoint echo_api) kwargs = Ok req) as H by reflexivity.
  split; [exact H|]. split; [|split; [|split]].
  - refine (proj1 (proj1 (collections_suppressed_or_shaped echo_api kwargs
                     "reports" _) req H) _); [|reflexivity].
    unfold collections. repeat constructor.
  - refine (proj2 (proj2 (proj1 (collections_suppressed_or_shaped echo_api kwargs
                     "credentials" _) req H)) _ _ _); [|reflexivity].
    unfold collections. repeat constructor.
  - destruct (proj2 (collections_suppressed_or_shaped echo_api with_report
                "reports" ltac:(unfold collections; repeat constructor))
                [PyTuple [PyInt 1; PyStr "cumulative"]])
      as (req' & Hreq' & entries & Hget & Hall); [reflexivity | | reflexivity |].
    + repeat constructor.
      exists (PyDict [("id", PyInt 1); ("reportSource", PyStr "cumulative")]),
             1, "cumulative".
      repeat split. unfold report_sources. repeat constructor.
    + by exists req', entries.
  - reflexivity.
Defined.

(** C7.  [copy(scan_id=n, name=s)] with [n] positive posts to
    [wasScan/n/copy] the body [{"name": s, "targetUser": {"id": n}}], the
    id an integer; [copy(scan_uuid=u, name=s)] posts to [wasScan/u/copy]
    the body [{"name": s, "targetUser": {"uuid": u}}].  Either call returns
    what the reply holds under [response]. *)
Theorem copy_request api n s u :
  (0 < n →
   WasScanAPI.copy (endpoint api) (PyInt n) PyNone (PyStr s)
   = let req := {| verb := POST;
                   path := "wasScan/" +:+ pretty n +:+ "/copy";
                   params := None;
                   json := Some (PyDict [("name", PyStr s);
                                         ("targetUser", PyDict [("id", PyInt n)])]) |}
     in ([req], unwrapped (api req)))
  ∧ WasScanAPI.copy (endpoint api) PyNone (PyStr u) (PyStr s)
    = let req := {| verb := POST;
                    path := "wasScan/" +:+ u +:+ "/copy";
                    params := None;
                    json := Some (PyDict [("name", PyStr s);
                                          ("targetUser", PyDict [("uuid", PyStr u)])]) |}
      in ([req], unwrapped (api req)).
Proof.
  split.
  - intros Hn. unfold WasScanAPI.copy. cbn [is_none negb andb orb truthy].
    assert ((n =? 0) = false) as -> by lia. cbn [negb].
    cbn [_check endpoint check has_type]. rewrite !pure_Ok_bind.
    cbn [mbind result_bind dict_set_in dict_get dict_set String.eqb Ascii.eqb Bool.eqb].
    rewrite pure_Ok_bind. apply send_unwrapped.
  - unfold WasScanAPI.copy. cbn [is_none negb andb orb truthy].
    cbn [_check endpoint check has_type]. rewrite !pure_Ok_bind.
    cbn [mbind result_bind dict_set_in dict_get dict_set String.eqb Ascii.eqb Bool.eqb].
    rewrite pure_Ok_bind. apply send_unwrapped.
Qed.

Lemma copy_request_witness :
  0 < 1
  ∧ WasScanAPI.copy (endpoint echo_api) (PyInt 1) PyNone (PyStr "n")
    = ([{| verb := POST; path := "wasScan/1/copy"; params := None;
           json := Some (PyDict [("name", PyStr "n");
                                 ("targetUser", PyDict [("id", PyInt 1)])]) |}],
       Ok (PyDict [("id", PyStr "9")])).
Proof.
  split; [lia|].
  destruct (copy_request echo_api 1 "n" "") as [H _].
  rewrite H; [reflexivity | lia].
Defined.



(** C9.  A keyword outside the eighteen the builder reads changes nothing:
    with it the builder returns the same request or raises the same
    exception as without it.  Every key of a request the builder returns
    is the key of one of these keywords, and that keyword was passed. *)
Theorem unrecognized_keys_ignored self kwargs :
  (∀ k v, k ∉ recognized → build self (<[k:=v]> kwargs) = build self kwargs)
  ∧ (∀ req k x,
       build self kwargs = Ok req → dict_get k req = Some x →
       ∃ key, key ∈ recognized ∧ (key, k) ∈ field_outputs
              ∧ is_Some (kwargs !! key)).
Proof.
  split.
  - intros k v. apply build_insert_unrecognized.
  - intros req k x. apply build_origin.
Qed.

Lemma unrecognized_keys_ignored_witness :
  let kwargs := kwargs_of [("name", PyStr "n")] in
  build (endpoint echo_api) (<["colour" := PyStr "red"]> kwargs)
  = Ok [("name", PyStr "n")]
  ∧ ∃ key, key ∈ recognized ∧ (key, "name") ∈ field_outputs
           ∧ is_Some (kwargs !! key).
Proof.
  intros kwargs.
  destruct (unrecognized_keys_ignored (endpoint echo_api) kwargs)
    as [Hignored Honly].
  split.
  - rewrite Hignored; [reflexivity|].
    apply (bool_decide_unpack _). vm_compute. exact I.
  - apply (Honly [("name", PyStr "n")] "name" (PyStr "n")); reflexivity.
Defined.




(** ** Further properties *)

(** X1.  The eight keywords the builder stores without validation can
    never make it raise: with any value for one of them the builder
    raises the same exception as without, or none. *)
Theorem unvalidated_keywords_never_raise self kwargs key v :
  key ∈ unvalidated →
  raised (build self (<[key:=v]> kwargs)) = raised (build self kwargs).
Proof.
  unfold unvalidated. rewrite !elem_of_cons, elem_of_nil.
  intros Hkey.
  unfold WasScanAPI._build_creation_or_update_request.
  repeat (destruct Hkey as [->|Hkey];
    [rewrite kwarg_insert_ne by done;
     apply raised_bind_same; intros name; raised_blocks|]).
  done.
Qed.

Lemma unvalidated_keywords_never_raise_witness :
  raised (build (endpoint echo_api)
            (<["maxScanTime" := PyList [PyNone]]> (kwargs_of [("name", PyStr "n")])))
  = None
  ∧ raised (build (endpoint echo_api)
              (<["zone_id" := PyStr "x"]> (kwargs_of [("type", PyInt 1)])))
    = Some (KeyError (PyStr "name")).
Proof.
  split.
  - rewrite unvalidated_keywords_never_raise; [reflexivity|].
    unfold unvalidated. repeat constructor.
  - rewrite unvalidated_keywords_never_raise; [reflexivity|].
    unfold unvalidated. repeat constructor.
Defined.

(** X2.  The keys of a request the builder returns are in the order the
    builder assigns them, each at most once, whatever the order the
    keywords were passed in. *)
Theorem request_keys_in_source_order self kwargs req :
  build self kwargs = Ok req →
  req.*1 `sublist_of` output_keys ∧ NoDup req.*1.
Proof.
  intros H. pose proof (build_keys _ _ _ H) as Hsub. split; [done|].
  eapply sublist_NoDup; [|exact Hsub].
  apply (bool_decide_unpack _). vm_compute. exact I.
Qed.

Lemma request_keys_in_source_order_witness :
  let kwargs :=
    kwargs_of [("urlList", PyStr "u"); ("zone_id", PyInt 2);
               ("name", PyStr "n"); ("type", PyStr "t")] in
  let req :=
    [("name", PyStr "n"); ("type", PyStr "t");
     ("zone", PyDict [("id", PyStr "2")]); ("urlList", PyStr "u")] in
  build (endpoint echo_api) kwargs = Ok req
  ∧ req.*1 `sublist_of` output_keys.
Proof.
  intros kwargs req.
  assert (build (endpoint echo_api) kwargs = Ok req) as H by reflexivity.
  split; [exact H|].
  exact (proj1 (request_keys_in_source_order (endpoint echo_api) kwargs req H)).
Defined.

(** X3.  A request is only built from keyword arguments that hold [name].
    A truthy [name] is handed to the validator as a string and stored as
    the validator returns it.  So are [type], [description], [urlList],
    [timeoutAction] and [rolloverType] when passed, the last two with
    their choices, and [schedule_type], which goes under [schedule.type];
    when not passed they leave no key. *)
Theorem checked_keywords_stored self kwargs req :
  build self kwargs = Ok req →
  (∃ v, kwargs !! "name" = Some v
        ∧ if truthy v
          then ∃ c, _check self "name" v TStr None = Ok c
                    ∧ dict_get "name" req = Some c
          else dict_get "name" req = None)
  ∧ (∀ key choices, (key, choices) ∈ checked →
       match kwargs !! key with
       | Some v =>
           ∃ c, _check self key v TStr choices = Ok c
                ∧ dict_get (emitted key c).1 req = Some (emitted key c).2
       | None => ∀ c, dict_get (emitted key c).1 req = None
       end).
Proof.
  intros H. split; [by apply build_name|].
  intros key choices Hkey. by apply build_checked_field.
Qed.

Lemma checked_keywords_stored_witness :
  let kwargs :=
    kwargs_of [("name", PyStr "n"); ("urlList", PyStr "http://a");
               ("schedule_type", PyStr "never")] in
  let req :=
    [("name", PyStr "n"); ("schedule", PyDict [("type", PyStr "never")]);
     ("urlList", PyStr "http://a")] in
  build (endpoint echo_api) kwargs = Ok req
  ∧ (∃ c, check "urlList" (PyStr "http://a") TStr None = Ok c
          ∧ dict_get "urlList" req = Some c)
  ∧ (∀ c, dict_get (emitted "type" c).1 req = None).
Proof.
  intros kwargs req.
  assert (build (endpoint echo_api) kwargs = Ok req) as H by reflexivity.
  destruct (checked_keywords_stored (endpoint echo_api) kwargs req H)
    as [_ Hfields].
  split; [exact H|]. split.
  - apply (Hfields "urlList" None). unfold checked. repeat constructor.
  - apply (Hfields "type" None). unfold checked. repeat constructor.
Defined.

(** X4.  What a keyword handed to the validator does to the builder: a
    value the validator accepts changes nothing in whether, and with what,
    the builder raises; a value it rejects makes the builder raise the
    validator's exception as it is, when the other keywords are accepted
    without it. *)
Theorem checked_keyword_decides self kwargs key choices v :
  (key, choices) ∈ checked →
  kwargs !! key = Some v →
  match _check self key v TStr choices with
  | Ok _ => raised (build self kwargs) = raised (build self (delete key kwargs))
  | Err e =>
      raised (build self (delete key kwargs)) = None →
      build self kwargs = Err e
  end.
Proof.
  intros Hkey Hkw.
  destruct (_check self key v TStr choices) as [c|e] eqn:Hc.
  - by eapply build_checked_accepted.
  - by apply (build_checked_rejected self kwargs key choices v e).
Qed.

Lemma checked_keyword_decides_witness :
  build (endpoint echo_api)
    (kwargs_of [("name", PyStr "n"); ("description", PyInt 3);
                ("maxScanTime", PyInt 60)])
  = Err (InvalidType "description" TStr).
Proof.
  refine (checked_keyword_decides (endpoint echo_api)
            (kwargs_of [("name", PyStr "n"); ("description", PyInt 3);
                        ("maxScanTime", PyInt 60)])
            "description" None (PyInt 3) _ _ _).
  - unfold checked. repeat constructor.
  - reflexivity.
  - reflexivity.
Defined.

(** X5.  [create] and [edit] send the request the builder returns, the
    same body for the same keywords: [create] posts it to [wasScan],
    [edit] patches [wasScan/<scan_id>] with it, neither passes [params].
    When the builder raises, both raise its exception and send nothing. *)
Theorem create_and_edit_send_the_built_request self kwargs :
  match build self kwargs with
  | Ok request =>
      WasScanAPI.create self kwargs
      = (let req := {| verb := POST; path := "wasScan"; params := None;
                       json := Some (PyDict request) |}
         in ([req], unwrapped (_api self req)))
      ∧ ∀ scan_id,
          WasScanAPI.edit self scan_id kwargs
          = (let req := {| verb := PATCH; path := "wasScan/" +:+ str scan_id;
                           params := None; json := Some (PyDict request) |}
             in ([req], unwrapped (_api self req)))
  | Err e =>
      WasScanAPI.create self kwargs = ([], Err e)
      ∧ ∀ scan_id, WasScanAPI.edit self scan_id kwargs = ([], Err e)
  end.
Proof.
  unfold WasScanAPI.create, WasScanAPI.edit.
  destruct (build self kwargs) as [request|e]; [|done].
  split; [|intros scan_id]; rewrite pure_Ok_bind; apply send_unwrapped.
Qed.

(** X6.  A call of any of the six methods sends at most one request.  A
    call that sent none raised; an exception of the transport is the
    exception of the call, unchanged. *)
Theorem one_request_per_call self c :
  method_call self c →
  (length (dispatched c) ≤ 1)%nat
  ∧ (dispatched c = [] → is_err (outcome c) = true)
  ∧ (∀ req e, dispatched c = [req] → _api self req = Err e →
       outcome c = Err e).
Proof.
  intros Hc.
  destruct (method_call_guarded self c Hc) as [[[e ->]|[req ->]]|[req ->]];
    simpl.
  - repeat split; [lia | done].
  - repeat split; [lia | done |].
    intros req' e [= <-] He. by rewrite He.
  - repeat split; [lia | done |].
    intros req' e [= <-] He. by rewrite He.
Qed.

Lemma one_request_per_call_witness :
  outcome (WasScanAPI.delete (endpoint down_api) (PyInt 7))
  = Err (TransportError 503)
  ∧ outcome (WasScanAPI.list (endpoint down_api) PyNone)
    = Err (TransportError 503).
Proof.
  split.
  - refine (proj2 (proj2 (one_request_per_call (endpoint down_api) _ _)) _ _ _ _);
      [do 4 right; left; by eexists | reflexivity | reflexivity].
  - refine (proj2 (proj2 (one_request_per_call (endpoint down_api) _ _)) _ _ _ _);
      [right; left; by eexists | reflexivity | reflexivity].
Defined.

(** X7.  The projection of [list] and [details].  Falsy [fields] (None,
    an empty list) send empty [params] and the validator is not consulted.
    Truthy [fields] whose elements are strings, which the validator
    returns as they are, send the elements joined by commas under
    [fields]; a plain string counts as its characters. *)
Theorem fields_projection self fields :
  (truthy fields = false →
   WasScanAPI.list self fields
   = (let req := {| verb := GET; path := "wasScan";
                    params := Some (PyDict []); json := None |}
      in ([req], unwrapped (_api self req)))
   ∧ ∀ scan_id,
       WasScanAPI.details self scan_id fields
       = (let req := {| verb := GET; path := "wasScan/" +:+ str scan_id;
                        params := Some (PyDict []); json := None |}
          in ([req], unwrapped (_api self req))))
  ∧ (∀ fs,
       (∀ s, _check self "fields" (PyStr s) TStr None = Ok (PyStr s)) →
       truthy fields = true →
       iter fields = Ok (PyStr <$> fs) →
       WasScanAPI.list self fields
       = (let req := {| verb := GET; path := "wasScan";
                        params := Some (PyDict [("fields", PyStr (join "," fs))]);
                        json := None |}
          in ([req], unwrapped (_api self req)))
       ∧ ∀ scan_id,
           WasScanAPI.details self scan_id fields
           = (let req := {| verb := GET; path := "wasScan/" +:+ str scan_id;
                            params := Some (PyDict [("fields", PyStr (join "," fs))]);
                            json := None |}
              in ([req], unwrapped (_api self req)))).
Proof.
  unfold WasScanAPI.list, WasScanAPI.details. split.
  - intros ->. split; [|intros scan_id]; rewrite pure_Ok_bind; apply send_unwrapped.
  - intros fs Hstr -> ->. cbv zeta.
    rewrite !bind_Ok_l, (for_each_strings self fs Hstr), bind_Ok_l.
    rewrite str_join_strings, bind_Ok_l.
    split; [|intros scan_id]; rewrite pure_Ok_bind; apply send_unwrapped.
Qed.

Lemma fields_projection_witness :
  dispatched (WasScanAPI.list (endpoint echo_api) (PyList []))
  = [{| verb := GET; path := "wasScan"; params := Some (PyDict []);
        json := None |}]
  ∧ dispatched (WasScanAPI.list (endpoint echo_api) (PyStr "id"))
    = [{| verb := GET; path := "wasScan";
          params := Some (PyDict [("fields", PyStr "i,d")]); json := None |}]
  ∧ dispatched (WasScanAPI.details (endpoint echo_api) (PyInt 3)
                  (PyTuple [PyStr "id"; PyStr "name"]))
    = [{| verb := GET; path := "wasScan/3";
          params := Some (PyDict [("fields", PyStr "id,name")]); json := None |}].
Proof.
  split; [|split].
  - destruct (fields_projection (endpoint echo_api) (PyList [])) as [H _].
    destruct (H eq_refl) as [-> _]. reflexivity.
  - destruct (fields_projection (endpoint echo_api) (PyStr "id")) as [_ H].
    destruct (H ["i"; "d"] (λ s, eq_refl) eq_refl eq_refl) as [-> _].
    reflexivity.
  - destruct (fields_projection (endpoint echo_api)
                (PyTuple [PyStr "id"; PyStr "name"])) as [_ H].
    destruct (H ["id"; "name"] (λ s, eq_refl) eq_refl eq_refl) as [_ Hd].
    rewrite Hd. reflexivity.
Defined.

(** X8.  When the validator rejects one of the [fields], the ones before
    it accepted, [list] and [details] raise the validator's exception and
    send nothing. *)
Theorem rejected_field_sends_nothing self fields good bad rest e :
  truthy fields = true →
  iter fields = Ok (good ++ bad :: rest) →
  Forall (λ f, ∃ c, _check self "fields" f TStr None = Ok c) good →
  _check self "fields" bad TStr None = Err e →
  WasScanAPI.list self fields = ([], Err e)
  ∧ ∀ scan_id, WasScanAPI.details self scan_id fields = ([], Err e).
Proof.
  intros Ht Hi Hgood Hbad.
  unfold WasScanAPI.list, WasScanAPI.details. rewrite Ht, Hi. cbv zeta.
  rewrite !bind_Ok_l.
  by rewrite (for_each_first_Err _ good bad rest e Hgood Hbad).
Qed.

Lemma rejected_field_sends_nothing_witness :
  WasScanAPI.list (endpoint echo_api) (PyList [PyStr "id"; PyInt 4; PyNone])
  = ([], Err (InvalidType "fields" TStr)).
Proof.
  refine (proj1 (rejected_field_sends_nothing (endpoint echo_api)
                   (PyList [PyStr "id"; PyInt 4; PyNone])
                   [PyStr "id"] (PyInt 4) [PyNone] _ _ _ _ _));
    [reflexivity | reflexivity | | reflexivity].
  repeat constructor. by exists (PyStr "id").
Defined.

(** X9.  The four boolean keywords follow the truth value of whatever is
    passed, not only of booleans: the request holds ["true"] exactly when
    the value is truthy and ["false"] exactly when it is falsy, so that a
    non-empty string, ["false"] among them, is stored as ["true"]. *)
Theorem boolean_fields_follow_truthiness self kwargs req key v :
  key ∈ boolean_fields →
  build self kwargs = Ok req →
  kwargs !! key = Some v →
  (dict_get key req = Some (PyStr "true") ↔ truthy v = true)
  ∧ (dict_get key req = Some (PyStr "false") ↔ truthy v = false).
Proof.
  intros Hkey H Hkw. rewrite (build_boolean _ _ _ _ Hkey H), Hkw.
  unfold _to_boolean_string. simpl.
  destruct (truthy v); split; split; (done || discriminate || auto).
Qed.

Lemma boolean_fields_follow_truthiness_witness :
  let kwargs :=
    kwargs_of [("name", PyStr "n"); ("emailOnFinish", PyStr "false");
               ("dhcpTracking", PyInt 0)] in
  let req :=
    [("name", PyStr "n"); ("dhcpTracking", PyStr "false");
     ("emailOnFinish", PyStr "true")] in
  build (endpoint echo_api) kwargs = Ok req
  ∧ dict_get "emailOnFinish" req = Some (PyStr "true")
  ∧ dict_get "dhcpTracking" req = Some (PyStr "false").
Proof.
  intros kwargs req.
  assert (build (endpoint echo_api) kwargs = Ok req) as H by reflexivity.
  split; [exact H|]. split.
  - apply (boolean_fields_follow_truthiness (endpoint echo_api) kwargs req
             "emailOnFinish" (PyStr "false"));
      [unfold boolean_fields; repeat constructor | exact H | reflexivity
      | reflexivity].
  - apply (boolean_fields_follow_truthiness (endpoint echo_api) kwargs req
             "dhcpTracking" (PyInt 0));
      [unfold boolean_fields; repeat constructor | exact H | reflexivity
      | reflexivity].
Defined.

(** X10.  With exactly one of [scan_id] and [scan_uuid] given and a name
    the validator accepts, [copy] chooses its branch by the truth value of
    [scan_id]: truthy, it posts to [wasScan/<scan_id>/copy] with the
    validated id under [targetUser.id]; falsy, which besides None includes
    0, it posts to [wasScan/<scan_uuid>/copy] with the validated uuid under
    [targetUser.uuid].  The body holds what the validator returned. *)
Theorem copy_branch_by_truthiness self scan_id scan_uuid name cn :
  is_none scan_id = negb (is_none scan_uuid) →
  _check self "name" name TStr None = Ok cn →
  (truthy scan_id = true →
   ∀ ci, _check self "scan_id" scan_id TInt None = Ok ci →
     WasScanAPI.copy self scan_id scan_uuid name
     = (let req := {| verb := POST;
                      path := "wasScan/" +:+ str scan_id +:+ "/copy";
                      params := None;
                      json := Some (PyDict [("name", cn);
                                            ("targetUser", PyDict [("id", ci)])]) |}
        in ([req], unwrapped (_api self req))))
  ∧ (truthy scan_id = false →
     ∀ cu, _check self "scan_uuid" scan_uuid TStr None = Ok cu →
       WasScanAPI.copy self scan_id scan_uuid name
       = (let req := {| verb := POST;
                        path := "wasScan/" +:+ str scan_uuid +:+ "/copy";
                        params := None;
                        json := Some (PyDict [("name", cn);
                                              ("targetUser", PyDict [("uuid", cu)])]) |}
          in ([req], unwrapped (_api self req)))).
Proof.
  intros Hone Hname. unfold WasScanAPI.copy. rewrite Hone, Hname.
  assert (negb (negb (is_none scan_uuid)) && negb (is_none scan_uuid)
          || negb (is_none scan_uuid) && is_none scan_uuid = false) as ->
    by by destruct (is_none scan_uuid).
  rewrite pure_Ok_bind. split.
  - intros -> ci ->. rewrite bind_Ok_l.
    cbn [mbind result_bind dict_set_in dict_get dict_set String.eqb Ascii.eqb Bool.eqb].
    rewrite pure_Ok_bind. apply send_unwrapped.
  - intros -> cu ->. rewrite bind_Ok_l.
    cbn [mbind result_bind dict_set_in dict_get dict_set String.eqb Ascii.eqb Bool.eqb].
    rewrite pure_Ok_bind. apply send_unwrapped.
Qed.

Lemma copy_branch_by_truthiness_witness :
  dispatched (WasScanAPI.copy (endpoint echo_api) (PyInt 12) PyNone (PyStr "n"))
  = [{| verb := POST; path := "wasScan/12/copy"; params := None;
        json := Some (PyDict [("name", PyStr "n");
                              ("targetUser", PyDict [("id", PyInt 12)])]) |}]
  ∧ dispatched (WasScanAPI.copy (endpoint echo_api) PyNone (PyStr "") (PyStr "n"))
    = [{| verb := POST; path := "wasScan//copy"; params := None;
          json := Some (PyDict [("name", PyStr "n");
                                ("targetUser", PyDict [("uuid", PyStr "")])]) |}].
Proof.
  split.
  - destruct (copy_branch_by_truthiness (endpoint echo_api) (PyInt 12) PyNone
                (PyStr "n") (PyStr "n") eq_refl eq_refl) as [H _].
    rewrite (H eq_refl (PyInt 12) eq_refl). reflexivity.
  - destruct (copy_branch_by_truthiness (endpoint echo_api) PyNone (PyStr "")
                (PyStr "n") (PyStr "n") eq_refl eq_refl) as [_ H].
    rewrite (H eq_refl (PyStr "") eq_refl). reflexivity.
Defined.

(** X11.  [copy] validates before it sends: with exactly one of [scan_id]
    and [scan_uuid] given, when the validator rejects the name, or accepts
    it and rejects the id or uuid of the branch taken, [copy] raises the
    validator's exception and sends nothing; the name is validated
    first. *)
Theorem copy_rejection_sends_nothing self scan_id scan_uuid name e :
  is_none scan_id = negb (is_none scan_uuid) →
  (_check self "name" name TStr None = Err e →
   WasScanAPI.copy self scan_id scan_uuid name = ([], Err e))
  ∧ (∀ cn, _check self "name" name TStr None = Ok cn →
       (if truthy scan_id
        then _check self "scan_id" scan_id TInt None
        else _check self "scan_uuid" scan_uuid TStr None) = Err e →
       WasScanAPI.copy self scan_id scan_uuid name = ([], Err e)).
Proof.
  intros Hone. unfold WasScanAPI.copy. rewrite Hone.
  assert (negb (negb (is_none scan_uuid)) && negb (is_none scan_uuid)
          || negb (is_none scan_uuid) && is_none scan_uuid = false) as ->
    by by destruct (is_none scan_uuid).
  split.
  - by intros ->.
  - intros cn -> Hbranch. rewrite pure_Ok_bind.
    destruct (truthy scan_id); by rewrite Hbranch.
Qed.

Lemma copy_rejection_sends_nothing_witness :
  WasScanAPI.copy (endpoint echo_api) (PyInt 3) PyNone (PyInt 9)
  = ([], Err (InvalidType "name" TStr))
  ∧ WasScanAPI.copy (endpoint echo_api) (PyStr "3") PyNone (PyStr "n")
    = ([], Err (InvalidType "scan_id" TInt)).
Proof.
  split.
  - apply (copy_rejection_sends_nothing (endpoint echo_api) (PyInt 3) PyNone
             (PyInt 9)); reflexivity.
  - apply (proj2 (copy_rejection_sends_nothing (endpoint echo_api) (PyStr "3")
                    PyNone (PyStr "n") _ eq_refl) (PyStr "n")); reflexivity.
Defined.

(** X12.  A value without a length (None, a boolean, an integer) passed as
    [reports], [assets] or [credentials] makes the builder raise; the key
    is not skipped.  The exception is the [TypeError] of [len] when the
    other keywords are accepted without it. *)
Theorem collection_without_length_raises self kwargs key v :
  key ∈ collections →
  kwargs !! key = Some v →
  len v = Err TypeError →
  ∃ e, build self kwargs = Err e
       ∧ (raised (build self (delete key kwargs)) = None → e = TypeError).
Proof.
  unfold collections. rewrite !elem_of_cons, elem_of_nil.
  intros Hkey Hkw Hlen.
  destruct (build self kwargs) as [req|e] eqn:He.
  - exfalso. build_inv He.
    destruct Hkey as [->|[->|[->|[]]]].
    all: match goal with
         | E : when_in ?kw ?key _ _ = Ok _, Hkw : ?kw !! ?key = Some _ |- _ =>
             unfold when_in in E; rewrite Hkw in E; inv_body E
         end.
    all: congruence.
  - exists e. split; [done|]. intros Hrest.
    destruct (build self (delete key kwargs)) as [r0|] eqn:H; [clear Hrest|done].
    revert Hkw H He.
    destruct Hkey as [->|[->|[->|[]]]]; intros Hkw H He.
    all: build_inv H; replay He.
    all: rewrite (when_in_Some _ _ _ _ _ Hkw), Hlen in He.
    all: simpl in He; congruence.
Qed.

Lemma collection_without_length_raises_witness :
  build (endpoint echo_api)
    (kwargs_of [("name", PyStr "n"); ("assets", PyNone)])
  = Err TypeError.
Proof.
  destruct (collection_without_length_raises (endpoint echo_api)
              (kwargs_of [("name", PyStr "n"); ("assets", PyNone)])
              "assets" PyNone) as (e & He & Hfirst);
    [unfold collections; repeat constructor | reflexivity | reflexivity |].
  rewrite He. f_equal. apply Hfirst. reflexivity.
Defined.

(** X13.  [reports], [assets] and [credentials] take anything with a
    length that can be iterated, a tuple as well as a list: in a request
    the builder returns, an empty one leaves no key, and any other is a
    list of as many objects as elements were visited, in their order, each
    holding what the validator returned for its element (for a report, for
    its first two items). *)
Theorem collections_any_iterable self kwargs req key v :
  key ∈ collections →
  build self kwargs = Ok req →
  kwargs !! key = Some v →
  ∃ items, iter v = Ok items
    ∧ match items with
      | [] => dict_get key req = None
      | _ :: _ =>
          ∃ entries, dict_get key req = Some (PyList entries)
                     ∧ length entries = length items
                     ∧ Forall2 (built_element self key) items entries
      end.
Proof.
  intros Hkey H Hkw.
  destruct (build_collection_any self kwargs req key v Hkey H Hkw)
    as (items & Hi & Hshape).
  exists items. split; [done|].
  destruct items as [|item items]; [done|].
  destruct Hshape as (entries & Hget & Hall).
  exists entries. repeat split; [done | | done].
  symmetry. by eapply Forall2_length.
Qed.

Lemma collections_any_iterable_witness :
  let kwargs :=
    kwargs_of [("name", PyStr "n"); ("assets", PyTuple [PyInt 4; PyInt 8]);
               ("credentials", PyTuple [])] in
  let req :=
    [("name", PyStr "n");
     ("assets", PyList [PyDict [("id", PyInt 4)]; PyDict [("id", PyInt 8)]])] in
  build (endpoint echo_api) kwargs = Ok req
  ∧ (∃ items, iter (PyTuple [PyInt 4; PyInt 8]) = Ok items
       ∧ match items with
         | [] => dict_get "assets" req = None
         | _ :: _ =>
             ∃ entries, dict_get "assets" req = Some (PyList entries)
                        ∧ length entries = length items
                        ∧ Forall2 (built_element (endpoint echo_api) "assets")
                            items entries
         end).
Proof.
  intros kwargs req.
  assert (build (endpoint echo_api) kwargs = Ok req) as H by reflexivity.
  split; [exact H|].
  apply (collections_any_iterable (endpoint echo_api) kwargs req "assets");
    [unfold collections; repeat constructor | exact H | reflexivity].
Defined.

(** X14.  The path of every request a method sends starts with the route
    [wasScan]; a GET carries [params] and no body, a POST or PATCH a body
    and no [params], the DELETE neither. *)
Theorem requests_start_with_the_route self c :
  method_call self c → Forall well_formed (dispatched c).
Proof.
  intros [[kwargs ->]|[[fields ->]|[(scan_id & fields & ->)|
          [(scan_id & kwargs & ->)|[[scan_id ->]|(scan_id & scan_uuid & name & ->)]]]]].
  - unfold WasScanAPI.create.
    rewrite (send_pure_dispatched self _ POST (λ _, _) (λ _, None)
               (λ request, Some (PyDict request))).
    destruct (build self kwargs); repeat constructor; by eexists.
  - unfold WasScanAPI.list. cbv zeta.
    rewrite (send_pure_dispatched self _ GET (λ _, _)
               (λ params, Some (PyDict params)) (λ _, None)).
    destruct (if truthy fields then _ else _); repeat constructor; by eexists.
  - unfold WasScanAPI.details. cbv zeta.
    rewrite (send_pure_dispatched self _ GET (λ _, _)
               (λ params, Some (PyDict params)) (λ _, None)).
    destruct (if truthy fields then _ else _); repeat constructor; by eexists.
  - unfold WasScanAPI.edit.
    rewrite (send_pure_dispatched self _ PATCH (λ _, _) (λ _, None)
               (λ request, Some (PyDict request))).
    destruct (build self kwargs); repeat constructor; by eexists.
  - repeat constructor.
  - unfold WasScanAPI.copy.
    destruct (_ || _); [constructor|].
    rewrite pure_bind. destruct (_check self "name" name TStr None) as [cn|e];
      [|constructor].
    rewrite pure_bind.
    destruct (truthy scan_id).
    + destruct (_check self "scan_id" scan_id TInt None) as [ci|e];
        [|constructor].
      rewrite bind_Ok_l.
      cbn [mbind result_bind dict_set_in dict_get dict_set String.eqb
           Ascii.eqb Bool.eqb].
      rewrite send_unwrapped. repeat constructor; by eexists.
    + destruct (_check self "scan_uuid" scan_uuid TStr None) as [cu|e];
        [|constructor].
      rewrite bind_Ok_l.
      cbn [mbind result_bind dict_set_in dict_get dict_set String.eqb
           Ascii.eqb Bool.eqb].
      rewrite send_unwrapped. repeat constructor; by eexists.
Qed.

Lemma requests_start_with_the_route_witness :
  Forall well_formed
    (dispatched (WasScanAPI.details (endpoint echo_api) (PyInt 3) PyNone)).
Proof.
  apply (requests_start_with_the_route (endpoint echo_api)).
  do 2 right. left. by do 2 eexists.
Defined.

(** X15.  A report that cannot be subscripted, or has fewer than two
    items, makes the builder raise, whatever the validator is. *)
Theorem malformed_report_raises self kwargs v items bad :
  kwargs !! "reports" = Some v →
  iter v = Ok items →
  bad ∈ items →
  is_err (item_at bad 0) = true ∨ is_err (item_at bad 1) = true →
  ∃ e, build self kwargs = Err e.
Proof.
  intros Hkw Hi Hbad Hitem. apply not_Ok_Err. intros req H.
  destruct (build_collection_any self kwargs req "reports" v
              ltac:(unfold collections; repeat constructor) H Hkw)
    as (items' & Hi' & Hshape).
  rewrite Hi in Hi'. injection Hi' as <-.
  destruct items as [|item items]; [by apply elem_of_nil in Hbad|].
  destruct Hshape as (entries & _ & Hall).
  apply list_elem_of_lookup in Hbad as [i Hbad].
  destruct (Forall2_lookup_l _ _ _ _ _ Hall Hbad)
    as (entry & _ & r0 & id & r1 & source & H0 & _ & H1 & _).
  rewrite H0, H1 in Hitem. by destruct Hitem.
Qed.

Lemma malformed_report_raises_witness :
  ∃ e, build (endpoint echo_api)
         (kwargs_of [("name", PyStr "n");
                     ("reports", PyList [PyTuple [PyInt 1; PyStr "lce"];
                                         PyTuple [PyInt 2]])])
       = Err e.
Proof.
  apply (malformed_report_raises (endpoint echo_api) _
           (PyList [PyTuple [PyInt 1; PyStr "lce"]; PyTuple [PyInt 2]])
           [PyTuple [PyInt 1; PyStr "lce"]; PyTuple [PyInt 2]]
           (PyTuple [PyInt 2]));
    [reflexivity | reflexivity | repeat constructor | right; reflexivity].
Defined.

(** X16.  When the validator rejects an element of [assets] or
    [credentials], the elements before it accepted, the builder raises
    the validator's exception as it is, provided the other keywords are
    accepted without the collection. *)
Theorem rejected_id_raises self kwargs key field v good bad rest e :
  (key, field) ∈ id_collections →
  kwargs !! key = Some v →
  iter v = Ok (good ++ bad :: rest) →
  Forall (λ item, ∃ c, _check self field item TInt None = Ok c) good →
  _check self field bad TInt None = Err e →
  raised (build self (delete key kwargs)) = None →
  build self kwargs = Err e.
Proof.
  unfold id_collections. rewrite !elem_of_cons, elem_of_nil.
  intros Hkey Hkw Hi Hgood Hbad Hrest.
  destruct (build self (delete key kwargs)) as [r0|] eqn:H; [clear Hrest|done].
  assert (len v = Ok (Z.of_nat (length (good ++ bad :: rest)))) as Hlen.
  { destruct v; simpl in *; try discriminate; injection Hi as <-;
      by rewrite ?chars_length, ?length_fmap. }
  assert ((0 <? Z.of_nat (length (good ++ bad :: rest))) = true) as Hpos
    by (apply Z.ltb_lt; rewrite length_app; simpl; lia).
  revert Hkw Hgood Hbad H.
  destruct Hkey as [[= -> ->]|[[= -> ->]|[]]]; intros Hkw Hgood Hbad H.
  all: build_inv H; replay_goal.
  all: rewrite (when_in_Some _ _ _ _ _ Hkw), Hlen, bind_Ok_l, Hpos, Hi, bind_Ok_l.
  all: rewrite (for_each_first_Err _ good bad rest e); [done| |by rewrite Hbad].
  all: eapply Forall_impl; [exact Hgood|].
  all: intros item [c Hc]; cbv beta; rewrite Hc; by eexists.
Qed.

Lemma rejected_id_raises_witness :
  build (endpoint echo_api)
    (kwargs_of [("name", PyStr "n");
                ("credentials", PyList [PyInt 4; PyStr "5"; PyInt 6])])
  = Err (InvalidType "credentials" TInt).
Proof.
  apply (rejected_id_raises (endpoint echo_api) _ "credentials" "credentials"
           (PyList [PyInt 4; PyStr "5"; PyInt 6]) [PyInt 4] (PyStr "5") [PyInt 6]);
    [unfold id_collections; repeat constructor | reflexivity | reflexivity
    | | reflexivity | reflexivity].
  repeat constructor. by exists (PyInt 4).
Defined.

